(** * WindmillFan: the Blynk pin client, the device adapter and the refresh cycle

    A shallow embedding of [custom_components/windmillfan]:
    - [const.py]          the speed and power tables,
    - [blynk_service.py]  [BlynkService]: request with retry, pin get/set,
                          power and fan-speed adapters,
    - [coordinator.py]    [WindmillDataUpdateCoordinator._async_update_data],
    - [entity.py]         the read-only properties of [WindmillFan].

    Conventions of the embedding.

    Text.  A Python [str] is a sequence of code points.  Rocq's [ascii] has
    256 values, so a [string] here is a Python [str] whose code points are
    below U+0100 (Basic Latin and Latin-1 Supplement); the character
    predicates below are the interpreter's [str.isdigit], [str.isalpha] and
    [str.isspace] on exactly that range.

    Values.  [pyobj] is the fragment of Python objects a pin value can be:
    what [int()] and [json.loads] produce.

    Effects.  The coroutines are functions in the monad [M]: they thread the
    number of HTTP requests issued so far, log every request and every sleep,
    and end in [Return] or [Raise].  The network is an oracle [transport]
    that tells what the n-th request does.  Logging calls have no effect on
    results and are left out. *)

From Stdlib Require Import ZArith List String Ascii Bool Lia.
From Stdlib Require Import DecimalString DecimalPos SpecFloat.
Import ListNotations.

Set Warnings "-register-all".
Local Open Scope string_scope.
Local Open Scope Z_scope.

(* ===================================================================== *)
(** ** Python text primitives on code points below U+0100 *)
(* ===================================================================== *)

Module PyStr.

Definition code (c : ascii) : N := N_of_ascii c.

Definition between (lo hi : N) (c : ascii) : bool :=
  (N.leb lo (code c) && N.leb (code c) hi)%bool.

(** Characters of Unicode category Nd: the only ones [int()] accepts. *)
Definition isdecimal_char (c : ascii) : bool := between 48 57 c.

(** [str.isdigit] also accepts Numeric_Type=Digit: superscript two, three
    and one (U+00B2, U+00B3, U+00B9). *)
Definition isdigit_char (c : ascii) : bool :=
  (isdecimal_char c || N.eqb (code c) 178 || N.eqb (code c) 179
   || N.eqb (code c) 185)%bool.

(** [str.isalpha]: general category L*. *)
Definition isalpha_char (c : ascii) : bool :=
  (between 65 90 c || between 97 122 c
   || N.eqb (code c) 170 || N.eqb (code c) 181 || N.eqb (code c) 186
   || between 192 214 c || between 216 246 c || between 248 255 c)%bool.

(** [str.isspace]. *)
Definition isspace_char (c : ascii) : bool :=
  (between 9 13 c || between 28 32 c
   || N.eqb (code c) 133 || N.eqb (code c) 160)%bool.

Definition chars (s : string) : list ascii := list_ascii_of_string s.
Definition text (l : list ascii) : string := string_of_list_ascii l.

(** [s.isdigit()], [s.isalpha()]: false on the empty text. *)
Definition nonempty_all (p : ascii -> bool) (s : string) : bool :=
  match chars s with
  | [] => false
  | l => forallb p l
  end.

Definition isdigit (s : string) : bool := nonempty_all isdigit_char s.
Definition isalpha (s : string) : bool := nonempty_all isalpha_char s.
Definition isdecimal (s : string) : bool := nonempty_all isdecimal_char s.

Fixpoint lstrip_chars (l : list ascii) : list ascii :=
  match l with
  | c :: r => if isspace_char c then lstrip_chars r else l
  | [] => []
  end.

(** [s.strip()] *)
Definition strip (s : string) : string :=
  text (rev (lstrip_chars (rev (lstrip_chars (chars s))))).

Definition digit_value (c : ascii) : Z := Z.of_N (code c) - 48.

Definition decimal_value (l : list ascii) : Z :=
  fold_left (fun acc c => 10 * acc + digit_value c) l 0.

(** [str(z)] for an [int]. *)
Definition str_of_int (z : Z) : string := NilZero.string_of_int (Z.to_int z).

(** The decimal digits a text starts with: what [int()] scans. *)
Fixpoint decimal_run (l : list ascii) : list ascii :=
  match l with
  | c :: r => if isdecimal_char c then c :: decimal_run r else []
  | [] => []
  end.

(** [repr(s)] cut to 200 characters (the format [%.200R] of the error of
    [int()]), for a text without quotes, backslashes or unprintable
    characters. *)
Definition repr_200 (s : string) : string :=
  text (firstn 200 (chars ("'" ++ s ++ "'"))).

End PyStr.

(* ===================================================================== *)
(** ** Python values and dictionaries *)
(* ===================================================================== *)

(** What a decoded pin value can be: an [int], a [str], or any other value
    that [json.loads] yields as first element of an array. *)
Inductive pyobj : Type :=
| PyNone
| PyBool (b : bool)
| PyInt (z : Z)
| PyFloat (f : spec_float)
| PyStr (s : string)
| PyList (l : list pyobj)
| PyDict (d : list (string * pyobj)).

(** Exact comparison of a float with an int, as [float.__eq__] does it. *)
Definition float_eq_int (f : spec_float) (n : Z) : bool :=
  match f with
  | S754_zero _ => n =? 0
  | S754_finite s m e =>
      let sgn x := if s then - x else x in
      if 0 <=? e then n =? sgn (Z.pos m * 2 ^ e)
      else ((Z.pos m mod 2 ^ (- e) =? 0) && (n =? sgn (Z.pos m / 2 ^ (- e))))%bool
  | S754_infinity _ | S754_nan => false
  end.

(** [v == n] for an int [n].  [bool] is a subclass of [int]; floats compare
    by value; every other type answers [NotImplemented], and the comparison
    falls back to identity, which is false against a literal. *)
Definition eq_int (v : pyobj) (n : Z) : bool :=
  match v with
  | PyInt z => z =? n
  | PyBool b => (if b then 1 else 0) =? n
  | PyFloat f => float_eq_int f n
  | PyNone | PyStr _ | PyList _ | PyDict _ => false
  end.

(** [v == s] for a str [s]. *)
Definition eq_str (v : pyobj) (s : string) : bool :=
  match v with
  | PyStr t => String.eqb t s
  | _ => false
  end.

Section Str.

(** [repr] of floats, lists and dicts is the interpreter's; the adapter
    only ever looks the result up in a table. *)
Variable repr : pyobj -> string.

(** [str(v)] *)
Definition str (v : pyobj) : string :=
  match v with
  | PyNone => "None"
  | PyBool true => "True"
  | PyBool false => "False"
  | PyInt z => PyStr.str_of_int z
  | PyStr s => s
  | PyFloat _ | PyList _ | PyDict _ => repr v
  end.

End Str.

(** Insertion-ordered dictionaries with unique keys. *)
Module PyDict.
Section Dict.
Context {K V : Type} (eqb : K -> K -> bool).

Definition dict := list (K * V).

Fixpoint lookup (d : dict) (k : K) : option V :=
  match d with
  | [] => None
  | (k', v) :: r => if eqb k' k then Some v else lookup r k
  end.

(** [d.get(k, default)] *)
Definition get (d : dict) (k : K) (default : V) : V :=
  match lookup d k with
  | Some v => v
  | None => default
  end.

(** [d[k] = v]: an existing key keeps its position. *)
Fixpoint set (d : dict) (k : K) (v : V) : dict :=
  match d with
  | [] => [(k, v)]
  | (k', v') :: r => if eqb k' k then (k', v) :: r else (k', v') :: set r k v
  end.

Definition keys (d : dict) : list K := map fst d.
Definition items (d : dict) : list (K * V) := d.

(** A dict display [{k1: v1, k2: v2, ...}]. *)
Definition of_items (l : list (K * V)) : dict :=
  fold_left (fun d kv => set d (fst kv) (snd kv)) l [].

End Dict.
End PyDict.

(* ===================================================================== *)
(** ** const.py *)
(* ===================================================================== *)

Definition UPDATE_INTERVAL : Z := 60.
Definition BASE_URL : string := "https://dashboard.windmillair.com".
Definition HTTP_TIMEOUT : Z := 30.
Definition MAX_RETRIES : Z := 3.

Definition FAN_SPEED_MAPPING : list (string * string) :=
  PyDict.of_items String.eqb
    [ ("Whisper", "1"); ("Low", "2"); ("Medium", "3"); ("High", "4");
      ("Boost", "5") ].

(** [{v: k for k, v in FAN_SPEED_MAPPING.items()}] *)
Definition FAN_SPEED_REVERSE_MAPPING : list (string * string) :=
  fold_left (fun d kv => PyDict.set String.eqb d (snd kv) (fst kv))
            (PyDict.items FAN_SPEED_MAPPING) [].

Definition POWER_MAPPING : list (bool * Z) :=
  PyDict.of_items Bool.eqb [ (false, 0); (true, 1) ].

Definition PIN_POWER : string := "V0".
Definition PIN_FAN_SPEED : string := "V2".
Definition DEFAULT_FAN_SPEED : string := "Medium".

(* ===================================================================== *)
(** ** Exceptions, outcomes and the monad of coroutines *)
(* ===================================================================== *)

(** The exception classes the code tells apart.  [ClientError] stands for
    [aiohttp.ClientError] and its subclasses, [OtherException] for any other
    subclass of [Exception] (a [ValueError] of [int()], a [TimeoutError] or
    [UnicodeDecodeError] out of the HTTP library, ...). *)
Inductive exn : Type :=
| BlynkServiceError (msg : string)
| ClientError (msg : string)
| OtherException (msg : string)
| UpdateFailed (msg : string).

(** [str(e)] *)
Definition exn_str (e : exn) : string :=
  match e with
  | BlynkServiceError m | ClientError m | OtherException m | UpdateFailed m => m
  end.

Inductive result (A : Type) : Type :=
| Return (a : A)
| Raise (e : exn).
Arguments Return {A} a.
Arguments Raise {A} e.

(** What a coroutine leaves behind for an observer of the network. *)
Inductive event : Type :=
| Request (url : string)
| Sleep (seconds : Z).

(** A coroutine started when [n] requests have been issued ends in an
    outcome, a new request count and the events it caused, in order. *)
Definition M (A : Type) : Type := nat -> result A * nat * list event.

Definition ret {A} (a : A) : M A := fun n => (Return a, n, []).
Definition raise {A} (e : exn) : M A := fun n => (Raise e, n, []).

Definition bind {A B} (m : M A) (k : A -> M B) : M B := fun n =>
  match m n with
  | (Return a, n1, ev1) =>
      let '(r, n2, ev2) := k a n1 in (r, n2, (ev1 ++ ev2)%list)
  | (Raise e, n1, ev1) => (Raise e, n1, ev1)
  end.

(** [try: m  except Exception as e: h e]; a handler re-raises what its
    [except] clauses do not name. *)
Definition try_except {A} (m : M A) (h : exn -> M A) : M A := fun n =>
  match m n with
  | (Return a, n1, ev1) => (Return a, n1, ev1)
  | (Raise e, n1, ev1) =>
      let '(r, n2, ev2) := h e n1 in (r, n2, (ev1 ++ ev2)%list)
  end.

(** Lifting the outcome of a pure computation. *)
Definition lift {A} (r : result A) : M A := fun n => (r, n, []).

Declare Scope coro_scope.
Delimit Scope coro_scope with coro.
Notation "x <- m ;; k" := (bind m (fun x => k))
  (at level 100, m at next level, right associativity) : coro_scope.
Notation "m ;;; k" := (bind m (fun _ => k))
  (at level 100, right associativity) : coro_scope.
Local Open Scope coro_scope.

(* ===================================================================== *)
(** ** The network *)
(* ===================================================================== *)

(** What the HTTP library can raise: an [aiohttp.ClientError], or something
    else. *)
Inductive http_error : Type :=
| HttpClientError (msg : string)
| HttpOtherError (msg : string).

Definition exn_of_http_error (e : http_error) : exn :=
  match e with
  | HttpClientError m => ClientError m
  | HttpOtherError m => OtherException m
  end.

(** [await response.text()] *)
Inductive body : Type :=
| Text (s : string)
| TextRaises (e : http_error).

Record response : Type := { status : Z; text : body }.

(** [session.get(url)] *)
Inductive reply : Type :=
| GetRaises (e : http_error)
| Responds (r : response).

(** The network: what the n-th request of the run, sent to [url], does. *)
Definition transport : Type := nat -> string -> reply.

(** The standard library's [json.loads]: a value, a [JSONDecodeError], or
    another exception ([RecursionError] on deep nesting, ...). *)
Inductive loads_result : Type :=
| Loaded (v : pyobj)
| JSONDecodeError
| LoadsRaises (msg : string).

(* ===================================================================== *)
(** ** urllib.parse.urlencode *)
(* ===================================================================== *)

Module Urllib.

Definition hex_digit (n : N) : ascii :=
  nth (N.to_nat n) (PyStr.chars "0123456789ABCDEF") "0"%char.

Definition percent (byte : N) : list ascii :=
  [ "%"%char; hex_digit (byte / 16); hex_digit (byte mod 16) ].

(** UTF-8 bytes of a code point below U+0100. *)
Definition utf8 (cp : N) : list N :=
  if (cp <? 128)%N then [cp] else [(192 + cp / 64)%N; (128 + cp mod 64)%N].

(** Letters, digits and [_.-~] are never quoted. *)
Definition always_safe (c : ascii) : bool :=
  (PyStr.between 65 90 c || PyStr.between 97 122 c || PyStr.between 48 57 c
   || Ascii.eqb c "_" || Ascii.eqb c "." || Ascii.eqb c "-"
   || Ascii.eqb c "~")%bool.

Definition quote_plus_char (c : ascii) : list ascii :=
  if always_safe c then [c]
  else if Ascii.eqb c " " then ["+"%char]
  else flat_map percent (utf8 (PyStr.code c)).

Definition quote_plus (s : string) : string :=
  PyStr.text (flat_map quote_plus_char (PyStr.chars s)).

Fixpoint join (sep : string) (l : list string) : string :=
  match l with
  | [] => ""
  | [x] => x
  | x :: r => x ++ sep ++ join sep r
  end.

(** [urlencode(params)] for a dict with [str] keys; values go through
    [str()] first. *)
Definition urlencode (str : pyobj -> string) (params : list (string * pyobj))
  : string :=
  join "&"
    (map (fun kv => quote_plus (fst kv) ++ "=" ++ quote_plus (str (snd kv)))
         params).

End Urllib.

(* ===================================================================== *)
(** ** blynk_service.py *)
(* ===================================================================== *)

(** [BlynkService]: the credentials.  The aiohttp session it caches is the
    connection pool behind [transport] and carries no other state. *)
Record BlynkService : Type := { server : string; token : string }.

Section Service.

Variable repr : pyobj -> string.
Variable json_loads : string -> loads_result.
Variable net : transport.

(** [async with session.get(url) as response] *)
Definition session_get (url : string) : M response := fun n =>
  match net n url with
  | GetRaises e => (Raise (exn_of_http_error e), S n, [Request url])
  | Responds r => (Return r, S n, [Request url])
  end.

(** [await response.text()] *)
Definition response_text (r : response) : M string :=
  match text r with
  | Text s => ret s
  | TextRaises e => raise (exn_of_http_error e)
  end.

(** [await asyncio.sleep(seconds)] *)
Definition sleep (seconds : Z) : M unit := fun n => (Return tt, n, [Sleep seconds]).

Definition _get_request_url (self : BlynkService) (endpoint : string)
    (params : list (string * pyobj)) : string :=
  let query := Urllib.urlencode (str repr) params in
  server self ++ "/" ++ endpoint ++ "?" ++ query.

(** One turn of the [for] loop of [_make_request_with_retry].  [Some t]: the
    function returns [t]; [None]: the loop goes on. *)
Definition attempt_once (url : string) (retries attempt : Z)
  : M (option string) :=
  try_except
    (response <- session_get url ;;
     if status response =? 200 then
       text <- response_text response ;;
       ret (Some (PyStr.strip text))
     else if status response =? 401 then
       raise (BlynkServiceError "Invalid authentication token")
     else if status response =? 400 then
       raise (BlynkServiceError "Bad request - check device token and pin")
     else
       text <- response_text response ;;
       raise (BlynkServiceError
                ("HTTP " ++ PyStr.str_of_int (status response) ++ ": " ++ text)))
    (fun e =>
       match e with
       | ClientError msg =>
           if attempt =? retries - 1 then
             raise (BlynkServiceError
                      ("Request failed after " ++ PyStr.str_of_int retries
                       ++ " attempts: " ++ msg))
           else
             sleep 1 ;;; ret None
       | _ => raise e
       end).

(** [for attempt in range(retries)], with [todo] turns left.  [None]: the
    loop ran to its end. *)
Fixpoint retry_loop (url : string) (retries attempt : Z) (todo : nat)
  : M (option string) :=
  match todo with
  | O => ret None
  | S todo' =>
      r <- attempt_once url retries attempt ;;
      match r with
      | Some t => ret (Some t)
      | None => retry_loop url retries (attempt + 1) todo'
      end
  end.

Definition _make_request_with_retry (url : string) (retries : Z) : M string :=
  r <- retry_loop url retries 0 (Z.to_nat retries) ;;
  match r with
  | Some t => ret t
  | None => raise (BlynkServiceError "Max retries exceeded")
  end.

(** [sys.get_int_max_str_digits()], the interpreter's default. *)
Definition INT_MAX_STR_DIGITS : Z := 4300.

(** The message of the [ValueError] for a text of too many digits. *)
Definition exceeds_limit (digits : Z) : string :=
  "Exceeds the limit (" ++ PyStr.str_of_int INT_MAX_STR_DIGITS
  ++ " digits) for integer string conversion: value has "
  ++ PyStr.str_of_int digits
  ++ " digits; use sys.set_int_max_str_digits() to increase the limit".

(** [int(s)] on a text for which [s.isdigit()] holds: no sign, blank or
    underscore is in it.  [int] scans the decimal digits the text starts
    with and counts them, leading zeros included; more of them than the
    interpreter's limit is an error; otherwise the text must end where the
    digits end.  Both errors are [ValueError]s. *)
Definition int_of_digits (s : string) : result Z :=
  let digits := Z.of_nat (List.length (PyStr.decimal_run (PyStr.chars s))) in
  if INT_MAX_STR_DIGITS <? digits then
    Raise (OtherException (exceeds_limit digits))
  else if PyStr.isdecimal s then
    Return (PyStr.decimal_value (PyStr.chars s))
  else
    Raise (OtherException
             ("invalid literal for int() with base 10: " ++ PyStr.repr_200 s)).

(** The [# Parse response] block of [async_get_pin_value]. *)
Definition parse_response (response_text : string) : result pyobj :=
  if PyStr.isdigit response_text then
    match int_of_digits response_text with
    | Return z => Return (PyInt z)
    | Raise e => Raise e
    end
  else if PyStr.isalpha response_text then
    Return (PyStr response_text)
  else
    match json_loads response_text with
    | Loaded (PyList (first :: _)) => Return first
    | Loaded _ => Return (PyStr response_text)
    | JSONDecodeError => Return (PyStr response_text)
    | LoadsRaises msg => Raise (OtherException msg)
    end.

Definition get_url (self : BlynkService) (pin : string) : string :=
  let params := PyDict.of_items String.eqb [ ("token", PyStr (token self)) ] in
  _get_request_url self "external/api/get" params ++ "&" ++ pin.

Definition async_get_pin_value (self : BlynkService) (pin : string)
  : M pyobj :=
  try_except
    (let url := get_url self pin in
     response_text <- _make_request_with_retry url MAX_RETRIES ;;
     lift (parse_response response_text))
    (fun e =>
       match e with
       | BlynkServiceError _ => raise e
       | _ => raise (BlynkServiceError
                       ("Failed to get pin value for " ++ pin ++ ": "
                        ++ exn_str e))
       end).

Definition set_url (self : BlynkService) (pin : string) (value : pyobj)
  : string :=
  let params :=
    PyDict.of_items String.eqb [ ("token", PyStr (token self)); (pin, value) ] in
  _get_request_url self "external/api/update" params.

Definition async_set_pin_value (self : BlynkService) (pin : string)
    (value : pyobj) : M string :=
  try_except
    (let url := set_url self pin value in
     response_text <- _make_request_with_retry url MAX_RETRIES ;;
     ret response_text)
    (fun e =>
       match e with
       | BlynkServiceError _ => raise e
       | _ => raise (BlynkServiceError
                       ("Failed to set pin value for " ++ pin ++ ": "
                        ++ exn_str e))
       end).

Definition async_set_power (self : BlynkService) (value : bool) : M unit :=
  let pin_value := PyDict.get Bool.eqb POWER_MAPPING value 0 in
  async_set_pin_value self PIN_POWER (PyInt pin_value) ;;; ret tt.

Definition async_set_fan (self : BlynkService) (value : string) : M unit :=
  let pin_value := PyDict.get String.eqb FAN_SPEED_MAPPING value "3" in
  async_set_pin_value self PIN_FAN_SPEED (PyStr pin_value) ;;; ret tt.

(** [bool(pin_value == 1 or pin_value == "1")] *)
Definition power_of_pin_value (pin_value : pyobj) : bool :=
  (eq_int pin_value 1 || eq_str pin_value "1")%bool.

Definition async_get_power (self : BlynkService) : M bool :=
  try_except
    (pin_value <- async_get_pin_value self PIN_POWER ;;
     ret (power_of_pin_value pin_value))
    (fun e => raise (BlynkServiceError
                       ("Failed to get power state: " ++ exn_str e))).

(** [FAN_SPEED_REVERSE_MAPPING.get(str(pin_value), "Medium")] *)
Definition fan_of_pin_value (pin_value : pyobj) : string :=
  let pin_value_str := str repr pin_value in
  PyDict.get String.eqb FAN_SPEED_REVERSE_MAPPING pin_value_str "Medium".

Definition async_get_fan (self : BlynkService) : M string :=
  try_except
    (pin_value <- async_get_pin_value self PIN_FAN_SPEED ;;
     ret (fan_of_pin_value pin_value))
    (fun e => raise (BlynkServiceError
                       ("Failed to get fan speed: " ++ exn_str e))).

Definition async_validate_token (self : BlynkService) : M bool :=
  try_except
    (async_get_power self ;;; ret true)
    (fun e =>
       match e with
       | BlynkServiceError _ => ret false
       | _ => raise e
       end).

End Service.

(* ===================================================================== *)
(** ** coordinator.py and entity.py *)
(* ===================================================================== *)

(** The dict [{"power": power_state, "fan": fan_speed}]. *)
Record Snapshot : Type := { power : bool; fan : string }.

(** The attributes of the coordinator that the integration reads. *)
Record Coordinator : Type := {
  blynk_service : BlynkService;
  data : option Snapshot;
  last_update_success : bool
}.

Section Refresh.

Variable repr : pyobj -> string.
Variable json_loads : string -> loads_result.
Variable net : transport.

Definition _async_update_data (self : Coordinator) : M Snapshot :=
  try_except
    (power_state <- async_get_power repr json_loads net (blynk_service self) ;;
     fan_speed <- async_get_fan repr json_loads net (blynk_service self) ;;
     let data := {| power := power_state; fan := fan_speed |} in
     ret data)
    (fun err =>
       match err with
       | BlynkServiceError _ =>
           raise (UpdateFailed
                    ("Error communicating with Windmill device: "
                     ++ exn_str err))
       | _ =>
           raise (UpdateFailed
                    ("Unexpected error fetching data: " ++ exn_str err))
       end).

(** Modelled from the spec: the refresh step of the host platform's
    coordinator base class, which [WindmillDataUpdateCoordinator] inherits
    and which is not part of the repository.  It runs the fetch; on success
    it stores the snapshot and marks the refresh successful; on failure it
    keeps the last good snapshot and marks the refresh failed.  It never
    raises. *)
Definition async_refresh (self : Coordinator) : M Coordinator := fun n =>
  let '(r, n1, ev) := _async_update_data self n in
  let self' :=
    match r with
    | Return snapshot =>
        {| blynk_service := blynk_service self;
           data := Some snapshot;
           last_update_success := true |}
    | Raise _ =>
        {| blynk_service := blynk_service self;
           data := data self;
           last_update_success := false |}
    end in
  (Return self', n1, ev).

End Refresh.

(** [WindmillFan.available] *)
Definition available (coordinator : Coordinator) : bool :=
  last_update_success coordinator.

(** [WindmillFan.is_on] *)
Definition is_on (coordinator : Coordinator) : bool :=
  match data coordinator with
  | None => false
  | Some d => power d
  end.

(** [WindmillFan.preset_mode] *)
Definition preset_mode (coordinator : Coordinator) : option string :=
  match data coordinator with
  | None => None
  | Some d => if negb (is_on coordinator) then None else Some (fan d)
  end.

(* ===================================================================== *)
(** ** Notions used in the statements *)
(* ===================================================================== *)

(** A reply is a transport failure when the HTTP library raises an
    [aiohttp.ClientError], on sending the request or on reading a body that
    the code reads. *)
Definition transport_failure (r : reply) : bool :=
  match r with
  | GetRaises (HttpClientError _) => true
  | GetRaises (HttpOtherError _) => false
  | Responds {| status := s; text := TextRaises (HttpClientError _) |} =>
      negb ((negb (s =? 200)) && ((s =? 401) || (s =? 400)))
  | Responds _ => false
  end.

(** The events of [k + 1] attempts with a pause after each but the last. *)
Fixpoint attempts_trace (url : string) (k : nat) : list event :=
  match k with
  | O => [Request url]
  | S k' => Request url :: Sleep 1 :: attempts_trace url k'
  end.

(** How the retry loop can be left from inside. *)
Inductive loop_exit {A : Type} : result A -> Prop :=
| exit_return (a : A) : loop_exit (Return a)
| exit_classified (msg : string) :
    msg <> "Max retries exceeded" -> loop_exit (Raise (BlynkServiceError msg))
| exit_unexpected (msg : string) : loop_exit (Raise (OtherException msg)).

(** What [async_get_pin_value] makes of a trimmed 200 body. *)
Definition decode (json_loads : string -> loads_result) (pin trimmed : string)
  : result pyobj :=
  match parse_response json_loads trimmed with
  | Return v => Return v
  | Raise e =>
      Raise (BlynkServiceError
               ("Failed to get pin value for " ++ pin ++ ": " ++ exn_str e))
  end.

(** The outcome of a run that issues one request to [url], pauses never,
    and raises a [BlynkServiceError] with message [msg]. *)
Definition fails_at_once {A : Type} (run : result A * nat * list event)
    (n : nat) (url msg : string) : Prop :=
  run = (Raise (BlynkServiceError msg), S n, [Request url]).

(** What the coordinator raises for an adapter error [e]. *)
Definition communication_error (e : exn) : exn :=
  UpdateFailed ("Error communicating with Windmill device: " ++ exn_str e).

(* ===================================================================== *)
(** ** Networks and inputs of the examples *)
(* ===================================================================== *)

(** The one-character text U+00B2, superscript two. *)
Definition sup2 : string := String (ascii_of_nat 178) EmptyString.

(** A 200 reply with a readable body. *)
Definition ok (body : string) : reply :=
  Responds {| status := 200; text := Text body |}.

(** A reply with another status. *)
Definition http (status : Z) (body : string) : reply :=
  Responds {| status := status; text := Text body |}.

(** The connection fails inside the HTTP library. *)
Definition client_error (msg : string) : reply :=
  GetRaises (HttpClientError msg).



(** A network that always does the same. *)
Definition net_const (r : reply) : transport := fun _ _ => r.

(** A network that plays the replies of [l] in turn, then [last]. *)
Definition net_script (l : list reply) (last : reply) : transport :=
  fun n _ => nth n l last.

Definition demo_service : BlynkService :=
  {| server := BASE_URL; token := "abcd1234ef" |}.

Definition demo_coordinator : Coordinator :=
  {| blynk_service := demo_service;
     data := Some {| power := true; fan := "High" |};
     last_update_success := true |}.

(** Stand-ins for the interpreter's [repr] and [json.loads] in examples
    that reach neither a float or container nor a JSON text. *)
Definition demo_repr : pyobj -> string := fun _ => "<repr>".
Definition no_json : string -> loads_result := fun _ => JSONDecodeError.

(** [json.loads] on four texts, for the examples of array decoding. *)
Definition json_sample (s : string) : loads_result :=
  if String.eqb s "[1]" then Loaded (PyList [PyInt 1])
  else if String.eqb s "[true]" then Loaded (PyList [PyBool true])
  else if String.eqb s "[]" then Loaded (PyList [])
  else if String.eqb s "-5" then Loaded (PyInt (-5))
  else JSONDecodeError.

(* ===================================================================== *)
(** ** Notions used in the further statements *)
(* ===================================================================== *)

(** The requests among the events of a run. *)
Definition requested (ev : list event) : list string :=
  flat_map (fun e => match e with Request u => [u] | Sleep _ => [] end) ev.

(** The pauses among the events of a run, in seconds. *)
Definition slept (ev : list event) : Z :=
  fold_right (fun e acc => match e with Sleep s => s + acc | Request _ => acc end)
             0 ev.

(** A run that ends in a value or in a [BlynkServiceError]. *)
Definition classified {A : Type} (r : result A) : Prop :=
  match r with
  | Return _ => True
  | Raise (BlynkServiceError _) => True
  | Raise _ => False
  end.

(** The characters [urlencode] lets into a key or a value: the unreserved
    ones, the plus sign for a blank and the percent sign of an escape. *)
Definition query_char (c : ascii) : bool :=
  (Urllib.always_safe c || Ascii.eqb c "+" || Ascii.eqb c "%")%bool.

(** A text of white space only. *)
Definition blank (l : list ascii) : Prop :=
  forallb PyStr.isspace_char l = true.


(* ===================================================================== *)
(** ** config_flow.py *)
(* ===================================================================== *)

(** [len(s)] *)
Definition str_len (s : string) : Z := Z.of_nat (String.length s).

(** [s[-k:]]: the last [k] characters, the whole text when it is shorter. *)
Definition str_suffix (k : nat) (s : string) : string :=
  PyStr.text (skipn (String.length s - k) (PyStr.chars s)).

(** [sub in s] *)
Fixpoint str_contains (sub s : string) : bool :=
  (String.prefix sub s
   || match s with
      | EmptyString => false
      | String _ rest => str_contains sub rest
      end)%bool.

(** The exceptions of the configuration flows: those of the adapter, the two
    classes the module declares, and the host's [AbortFlow]. *)
Inductive flow_exn : Type :=
| AdapterError (e : exn)
| InvalidAuth
| CannotConnect
| AbortFlow (reason : string).

Inductive flow_outcome (A : Type) : Type :=
| FlowReturn (a : A)
| FlowRaise (e : flow_exn).
Arguments FlowReturn {A} a.
Arguments FlowRaise {A} e.

(** The coroutines of the flows, over the same network. *)
Definition F (A : Type) : Type := nat -> flow_outcome A * nat * list event.

Definition flow_ret {A} (a : A) : F A := fun n => (FlowReturn a, n, []).
Definition flow_raise {A} (e : flow_exn) : F A := fun n => (FlowRaise e, n, []).

Definition flow_bind {A B} (m : F A) (k : A -> F B) : F B := fun n =>
  match m n with
  | (FlowReturn a, n1, ev1) =>
      let '(r, n2, ev2) := k a n1 in (r, n2, (ev1 ++ ev2)%list)
  | (FlowRaise e, n1, ev1) => (FlowRaise e, n1, ev1)
  end.

(** [try: m  except ...: h e  else: k a] *)
Definition flow_try_else {A B} (m : F A) (h : flow_exn -> F B) (k : A -> F B)
  : F B := fun n =>
  match m n with
  | (FlowReturn a, n1, ev1) =>
      let '(r, n2, ev2) := k a n1 in (r, n2, (ev1 ++ ev2)%list)
  | (FlowRaise e, n1, ev1) =>
      let '(r, n2, ev2) := h e n1 in (r, n2, (ev1 ++ ev2)%list)
  end.

(** [try: m  except ...: h e] *)
Definition flow_try {A} (m : F A) (h : flow_exn -> F A) : F A :=
  flow_try_else m h flow_ret.

(** Awaiting a coroutine of the adapter inside a flow. *)
Definition await {A} (m : M A) : F A := fun n =>
  match m n with
  | (Return a, n1, ev1) => (FlowReturn a, n1, ev1)
  | (Raise e, n1, ev1) => (FlowRaise (AdapterError e), n1, ev1)
  end.

(** What a step of a flow hands back to the host. *)
Inductive flow_result : Type :=
| ShowForm (step_id : string) (errors : list (string * string))
| CreateEntry (title : string) (data : list (string * string)).

Definition CONF_TOKEN : string := "token".

Section Flows.

Variable repr : pyobj -> string.
Variable json_loads : string -> loads_result.
Variable net : transport.

(** The host's flow manager: whether another flow with this unique id is in
    progress.  [async_set_unique_id], called with its default
    [raise_on_progress], raises [AbortFlow] if so, and otherwise records the
    id in the context of the flow. *)
Variable in_progress : string -> bool.

Definition async_set_unique_id (unique_id : string) : F unit :=
  if in_progress unique_id then flow_raise (AbortFlow "already_in_progress")
  else flow_ret tt.

(** The host's registry: whether it holds an entry with this unique id that
    makes [_abort_if_unique_id_configured] raise [AbortFlow]. *)
Variable configured : string -> bool.

Definition _abort_if_unique_id_configured (unique_id : string) : F unit :=
  if configured unique_id then flow_raise (AbortFlow "already_configured")
  else flow_ret tt.

(** The unique id of the config entry: lines 48 to 50 of [async_step_user],
    up to the call of the host. *)
Definition config_entry_unique_id (token : string) : string :=
  let token_suffix :=
    if 8 <=? str_len token then str_suffix 8 token else token in
  "windmill_fan_" ++ token_suffix.

Definition _test_credentials (token : string) : F unit :=
  if (String.eqb token "" || (str_len token <? 10))%bool then
    flow_raise InvalidAuth
  else
    flow_try
      (let service := {| server := BASE_URL; token := token |} in
       flow_bind (await (async_validate_token repr json_loads net service))
         (fun is_valid =>
            if negb is_valid then flow_raise InvalidAuth else flow_ret tt))
      (fun e =>
         match e with
         | AdapterError (BlynkServiceError msg) =>
             if (str_contains "Invalid authentication" msg
                 || str_contains "401" msg)%bool
             then flow_raise InvalidAuth
             else flow_raise CannotConnect
         | _ => flow_raise CannotConnect
         end).

Definition async_step_user (user_input : option string) : F flow_result :=
  match user_input with
  | Some token =>
      flow_try_else
        (_test_credentials token)
        (fun e =>
           let errors :=
             match e with
             | CannotConnect => [("base", "cannot_connect")]
             | InvalidAuth => [("base", "invalid_auth")]
             | _ => [("base", "unknown")]
             end in
           flow_ret (ShowForm "user" errors))
        (fun _ =>
           let unique_id := config_entry_unique_id token in
           flow_bind (async_set_unique_id unique_id)
             (fun _ =>
                flow_bind (_abort_if_unique_id_configured unique_id)
                  (fun _ =>
                     flow_ret
                       (CreateEntry "Windmill Fan" [(CONF_TOKEN, token)]))))
  | None => flow_ret (ShowForm "user" [])
  end.

(** [WindmillOptionsFlowHandler.async_step_init]; [stored] is
    [config_entry.data.get(CONF_TOKEN)].  Besides the result, the step tells
    the token it has stored in the entry, if any. *)
Definition async_step_init (stored : option string)
    (user_input : option string) : F (flow_result * option string) :=
  match user_input with
  | Some token =>
      if negb (match stored with
               | Some old => String.eqb token old
               | None => false
               end)
      then
        flow_try
          (let service := {| server := BASE_URL; token := token |} in
           flow_bind (await (async_validate_token repr json_loads net service))
             (fun is_valid =>
                if negb is_valid then
                  flow_ret (ShowForm "init" [("base", "invalid_auth")], None)
                else
                  flow_ret (CreateEntry "" [], Some token)))
          (fun _ =>
             flow_ret (ShowForm "init" [("base", "cannot_connect")], None))
      else flow_ret (CreateEntry "" [], None)
  | None => flow_ret (ShowForm "init" [], None)
  end.

End Flows.

(* ===================================================================== *)
(** ** entity.py: the commands and the remaining properties *)
(* ===================================================================== *)

Definition DOMAIN : string := "windmillfan".

(** [x in l] for a list of texts. *)
Definition str_in (x : string) (l : list string) : bool :=
  existsb (String.eqb x) l.

(** [list(FAN_SPEED_MAPPING.keys())], set in [__init__]. *)
Definition _speed_list : list string := PyDict.keys FAN_SPEED_MAPPING.
Definition _attr_preset_modes : list string := PyDict.keys FAN_SPEED_MAPPING.

(** [WindmillFan.speed_count] *)
Definition speed_count : Z := Z.of_nat (List.length _speed_list).

(** [_attr_unique_id], for the entity description of key [key]. *)
Definition unique_id (coordinator : Coordinator) (key : string) : string :=
  let token := token (blynk_service coordinator) in
  let token_suffix :=
    if negb (String.eqb token "") then str_suffix 8 token else "unknown" in
  DOMAIN ++ "_" ++ token_suffix ++ "_" ++ key.

(** [except ... as err: _LOGGER.error(...); raise] *)
Definition log_and_reraise {A} (m : M A) : M A :=
  try_except m (fun err => raise err).

Section Entity.

Variable repr : pyobj -> string.
Variable net : transport.

(** The host's [coordinator.async_request_refresh()]. *)
Variable async_request_refresh : M unit.

(** The host's helpers of [homeassistant.util.percentage]. *)
Variable ordered_list_item_to_percentage : list string -> string -> Z.
Variable percentage_to_ordered_list_item : list string -> Z -> string.

(** [WindmillFan.percentage] *)
Definition percentage (coordinator : Coordinator) : Z :=
  match data coordinator with
  | None => 0
  | Some d =>
      if negb (is_on coordinator) then 0
      else
        let current_speed := fan d in
        if (negb (String.eqb current_speed "")
            && str_in current_speed _speed_list)%bool
        then ordered_list_item_to_percentage _speed_list current_speed
        else 0
  end.

Definition async_set_preset_mode (coordinator : Coordinator)
    (preset_mode : string) : M unit :=
  if negb (str_in preset_mode _attr_preset_modes) then ret tt
  else
    log_and_reraise
      ((if negb (is_on coordinator)
        then async_set_power repr net (blynk_service coordinator) true
        else ret tt) ;;;
       (async_set_fan repr net (blynk_service coordinator) preset_mode ;;;
        async_request_refresh)).

Definition async_turn_off (coordinator : Coordinator) : M unit :=
  log_and_reraise
    (async_set_power repr net (blynk_service coordinator) false ;;;
     async_request_refresh).

Definition async_set_percentage (coordinator : Coordinator) (percentage : Z)
  : M unit :=
  log_and_reraise
    ((if percentage =? 0 then async_turn_off coordinator
      else
        ((if negb (is_on coordinator)
          then async_set_power repr net (blynk_service coordinator) true
          else ret tt) ;;;
         let speed := percentage_to_ordered_list_item _speed_list percentage in
         async_set_fan repr net (blynk_service coordinator) speed)) ;;;
     async_request_refresh).

Definition async_turn_on (coordinator : Coordinator) (percentage : option Z)
    (preset_mode : option string) : M unit :=
  log_and_reraise
    (async_set_power repr net (blynk_service coordinator) true ;;;
     ((match preset_mode with
       | Some preset_mode =>
           if str_in preset_mode _attr_preset_modes
           then async_set_fan repr net (blynk_service coordinator) preset_mode
           else async_set_fan repr net (blynk_service coordinator)
                  DEFAULT_FAN_SPEED
       | None =>
           match percentage with
           | Some percentage =>
               let speed :=
                 percentage_to_ordered_list_item _speed_list percentage in
               async_set_fan repr net (blynk_service coordinator) speed
           | None =>
               let current_speed :=
                 match data coordinator with
                 | Some d => Some (fan d)
                 | None => None
                 end in
               match current_speed with
               | Some s =>
                   if (String.eqb s "" || negb (str_in s _speed_list))%bool
                   then async_set_fan repr net (blynk_service coordinator)
                          DEFAULT_FAN_SPEED
                   else ret tt
               | None =>
                   async_set_fan repr net (blynk_service coordinator)
                     DEFAULT_FAN_SPEED
               end
           end
       end) ;;;
      async_request_refresh)).

End Entity.

(** [homeassistant.util.percentage], the host's helpers that [entity.py]
    imports, for a list that holds the item and is not empty. *)
Module HostUtil.

Fixpoint index_of (l : list string) (item : string) : nat :=
  match l with
  | [] => 0
  | x :: r => if String.eqb x item then 0 else S (index_of r item)
  end.

(** [(ordered_list.index(item) + 1) * 100 // len(ordered_list)] *)
Definition ordered_list_item_to_percentage (ordered_list : list string)
    (item : string) : Z :=
  let list_len := Z.of_nat (List.length ordered_list) in
  let list_position := Z.of_nat (index_of ordered_list item) + 1 in
  (list_position * 100) / list_len.

Fixpoint first_at_or_above (ordered_list : list string) (list_len : Z)
    (offset : Z) (percentage : Z) : option string :=
  match ordered_list with
  | [] => None
  | speed :: rest =>
      let list_position := offset + 1 in
      let upper_bound := (list_position * 100) / list_len in
      if percentage <=? upper_bound then Some speed
      else first_at_or_above rest list_len (offset + 1) percentage
  end.

(** The first item whose upper bound reaches [percentage], else the last. *)
Definition percentage_to_ordered_list_item (ordered_list : list string)
    (percentage : Z) : string :=
  match first_at_or_above ordered_list
          (Z.of_nat (List.length ordered_list)) 0 percentage with
  | Some speed => speed
  | None => last ordered_list ""
  end.

End HostUtil.

(* ===================================================================== *)
(** ** The session of the service *)
(* ===================================================================== *)

(** An [aiohttp.ClientSession]: which one it is, and its [closed] flag. *)
Record ClientSession : Type := { session_id : nat; closed : bool }.

(** The [_session] attribute of a [BlynkService], and the number of sessions
    created so far. *)
Record ServiceState : Type := {
  _session : option ClientSession;
  sessions_created : nat
}.

(** The state [__init__] leaves. *)
Definition new_service : ServiceState :=
  {| _session := None; sessions_created := 0 |}.

(** [BlynkService._get_session] *)
Definition _get_session (self : ServiceState) : ClientSession * ServiceState :=
  let create :=
    let s := {| session_id := sessions_created self; closed := false |} in
    (s, {| _session := Some s;
           sessions_created := S (sessions_created self) |}) in
  match _session self with
  | None => create
  | Some s => if closed s then create else (s, self)
  end.

(** [BlynkService.close] *)
Definition close (self : ServiceState) : ServiceState :=
  match _session self with
  | Some s =>
      if negb (closed s)
      then {| _session := Some {| session_id := session_id s; closed := true |};
              sessions_created := sessions_created self |}
      else self
  | None => self
  end.

(** [WindmillDataUpdateCoordinator.async_shutdown], on the state of the
    coordinator's service. *)
Definition async_shutdown (blynk_service : ServiceState) : ServiceState :=
  close blynk_service.

(** The clean-up of [async_unload_entry]: the coordinator is shut down, then
    the service, the same object, is closed. *)
Definition unload_cleanup (service : ServiceState) : ServiceState :=
  close (async_shutdown service).

(** The session at hand, if any, is one of those created. *)
Definition session_ok (self : ServiceState) : Prop :=
  forall s, _session self = Some s ->
            (session_id s < sessions_created self)%nat.

(* ===================================================================== *)
(** * Properties *)
(* ===================================================================== *)

(** ** The primitives on sample inputs *)

Example strip_example : PyStr.strip "  12
" = "12".
Proof. reflexivity. Qed.

Example str_of_int_examples :
  PyStr.str_of_int 0 = "0" /\ PyStr.str_of_int 401 = "401"
  /\ PyStr.str_of_int (-5) = "-5".
Proof. repeat split. Qed.

Example reverse_mapping_value :
  FAN_SPEED_REVERSE_MAPPING =
  [ ("1", "Whisper"); ("2", "Low"); ("3", "Medium"); ("4", "High");
    ("5", "Boost") ].
Proof. reflexivity. Qed.

Example quote_plus_example :
  Urllib.quote_plus "a b~_.-/&=" = "a+b~_.-%2F%26%3D".
Proof. reflexivity. Qed.

Example isdigit_examples :
  PyStr.isdigit "0123" = true /\ PyStr.isdigit "" = false
  /\ PyStr.isdigit "-5" = false /\ PyStr.isdigit "1 2" = false
  /\ PyStr.isdigit sup2 = true /\ PyStr.isdecimal sup2 = false.
Proof. repeat split. Qed.

Example isalpha_examples :
  PyStr.isalpha "off" = true /\ PyStr.isalpha "" = false
  /\ PyStr.isalpha "V0" = false.
Proof. repeat split. Qed.


(* ===================================================================== *)
(** ** One attempt *)
(* ===================================================================== *)

Ltac run_coro :=
  unfold attempt_once, try_except, bind, session_get, response_text, lift,
    raise, ret, sleep; simpl.

Ltac split_ifs :=
  repeat match goal with
         | |- context [if ?b then _ else _] => destruct b eqn:?; simpl
         end.

Section Attempt.

Variable net : transport.
Variables (url : string) (retries attempt : Z) (n : nat).

Lemma attempt_once_cases :
  (attempt_once net url retries attempt n
     = (Return None, S n, [Request url; Sleep 1])
   /\ (attempt =? retries - 1) = false
   /\ transport_failure (net n url) = true)
  \/ (exists r, attempt_once net url retries attempt n = (r, S n, [Request url])
      /\ match r with
         | Return (Some _) => True
         | Return None => False
         | Raise (BlynkServiceError msg) => msg <> "Max retries exceeded"
         | Raise (OtherException _) => True
         | Raise _ => False
         end).
Proof.
  run_coro.
  destruct (net n url) as [[m|m]|[s [t|[m|m]]]]; simpl; split_ifs;
    try (left; repeat split; reflexivity);
    right; eexists; (split; [reflexivity|]); simpl; try exact I;
    discriminate.
Qed.

End Attempt.

Section Loop.

Variable net : transport.
Variables (url : string) (retries : Z).

Lemma retry_loop_shape :
  forall (todo : nat) (attempt : Z) (n : nat),
    (0 < todo)%nat -> attempt + Z.of_nat todo = retries ->
    exists (k : nat) (r : result string),
      (k < todo)%nat
      /\ retry_loop net url retries attempt todo n
         = (match r with Return t => Return (Some t) | Raise e => Raise e end,
            (n + S k)%nat, attempts_trace url k)
      /\ loop_exit r
      /\ (forall j, (j < k)%nat -> transport_failure (net (n + j)%nat url) = true).
Proof.
  induction todo as [|todo IH]; intros attempt n Hpos Hsum; [lia|].
  simpl. unfold bind at 1.
  destruct (attempt_once_cases net url retries attempt n)
    as [(E & Hlast & Hfail) | (r & E & Hr)]; rewrite E.
  - assert (Htodo : (0 < todo)%nat).
    { apply Z.eqb_neq in Hlast. lia. }
    destruct (IH (attempt + 1) (S n) Htodo ltac:(lia)) as (k & r & Hk & E' & Hexit & Hall).
    exists (S k), r. rewrite E'. simpl.
    repeat split; try lia; auto.
    + f_equal. f_equal. lia.
    + intros [|j] Hj.
      * now rewrite Nat.add_0_r.
      * replace (n + S j)%nat with (S n + j)%nat by lia. apply Hall. lia.
  - destruct r as [[t|]|e]; try contradiction.
    + exists 0%nat, (Return t). unfold ret. simpl.
      repeat split; try lia; try constructor.
      * f_equal. f_equal. lia.
    + exists 0%nat, (Raise e). simpl.
      repeat split; try lia.
      * f_equal. f_equal. lia.
      * destruct e; try contradiction; now constructor.
Qed.

End Loop.

Section Request.

Variable net : transport.
Variable url : string.

Lemma request_shape (retries : Z) (n : nat) :
  1 <= retries ->
  exists (k : nat) (r : result string),
    Z.of_nat k < retries
    /\ _make_request_with_retry net url retries n
       = (r, (n + S k)%nat, attempts_trace url k)
    /\ loop_exit r
    /\ (forall j, (j < k)%nat -> transport_failure (net (n + j)%nat url) = true).
Proof.
  intros Hret.
  destruct (retry_loop_shape net url retries (Z.to_nat retries) 0 n)
    as (k & r & Hk & E & Hexit & Hall); try lia.
  exists k, r. unfold _make_request_with_retry, bind. rewrite E.
  repeat split; try lia; auto.
  destruct r; unfold ret; simpl; now rewrite ?app_nil_r.
Qed.



Lemma request_no_retry (retries : Z) (n : nat) :
  1 <= retries ->
  transport_failure (net n url) = false ->
  exists r, _make_request_with_retry net url retries n
            = (r, S n, [Request url]).
Proof.
  intros Hret Hnf.
  destruct (request_shape retries n Hret) as (k & r & _ & E & _ & Hall).
  destruct k as [|k].
  - exists r. rewrite E. f_equal. f_equal. lia.
  - specialize (Hall 0%nat ltac:(lia)). rewrite Nat.add_0_r in Hall. congruence.
Qed.

End Request.

Section Get.

Variable repr : pyobj -> string.
Variable json_loads : string -> loads_result.
Variable net : transport.
Variables (self : BlynkService) (pin : string).

Lemma parse_response_raises (t : string) (e : exn) :
  parse_response json_loads t = Raise e -> exists m, e = OtherException m.
Proof.
  unfold parse_response, int_of_digits.
  destruct (PyStr.isdigit t).
  - destruct (INT_MAX_STR_DIGITS <? _); [intros H; inversion H; eauto|].
    destruct (PyStr.isdecimal t); intros H; inversion H; eauto.
  - destruct (PyStr.isalpha t); [discriminate|].
    destruct (json_loads t) as [[| | | | |[|x l]|]| |m]; intros H; inversion H; eauto.
Qed.

Lemma get_after_request (n n' : nat) (r : result string) (ev : list event) :
  _make_request_with_retry net (get_url repr self pin) MAX_RETRIES n
  = (r, n', ev) ->
  async_get_pin_value repr json_loads net self pin n
  = (match r with
     | Return t => decode json_loads pin t
     | Raise (BlynkServiceError m) => Raise (BlynkServiceError m)
     | Raise e =>
         Raise (BlynkServiceError
                  ("Failed to get pin value for " ++ pin ++ ": " ++ exn_str e))
     end, n', ev).
Proof.
  intros E. unfold async_get_pin_value, try_except, bind. rewrite E.
  destruct r as [t|e].
  - unfold lift, decode.
    destruct (parse_response json_loads t) as [v|e] eqn:P; simpl.
    + now rewrite app_nil_r.
    + destruct (parse_response_raises _ _ P) as [m ->]. unfold raise.
      simpl. now rewrite !app_nil_r.
  - destruct e; unfold raise; simpl; now rewrite app_nil_r.
Qed.

End Get.

Section Adapter.

Variable repr : pyobj -> string.
Variable json_loads : string -> loads_result.
Variable net : transport.
Variable self : BlynkService.

Lemma request_first_try (url body : string) (retries : Z) (n : nat) :
  1 <= retries ->
  net n url = ok body ->
  _make_request_with_retry net url retries n
  = (Return (PyStr.strip body), S n, [Request url]).
Proof.
  intros Hret H.
  unfold _make_request_with_retry.
  destruct (Z.to_nat retries) as [|todo] eqn:E; [lia|].
  cbn [retry_loop]. run_coro. rewrite H. reflexivity.
Qed.

Lemma get_first_try (pin body : string) (n : nat) :
  net n (get_url repr self pin) = ok body ->
  async_get_pin_value repr json_loads net self pin n
  = (decode json_loads pin (PyStr.strip body), S n,
     [Request (get_url repr self pin)]).
Proof.
  intros H.
  apply (get_after_request repr json_loads net self pin n (S n)
           (Return (PyStr.strip body))).
  apply request_first_try; [unfold MAX_RETRIES; lia | exact H].
Qed.

Lemma get_power_after_get (n n' : nat) (r : result pyobj) (ev : list event) :
  async_get_pin_value repr json_loads net self PIN_POWER n = (r, n', ev) ->
  async_get_power repr json_loads net self n
  = (match r with
     | Return v => Return (power_of_pin_value v)
     | Raise e =>
         Raise (BlynkServiceError ("Failed to get power state: " ++ exn_str e))
     end, n', ev).
Proof.
  intros E. unfold async_get_power, try_except, bind. rewrite E.
  destruct r; unfold ret, raise; simpl; now rewrite app_nil_r.
Qed.

Lemma get_fan_after_get (n n' : nat) (r : result pyobj) (ev : list event) :
  async_get_pin_value repr json_loads net self PIN_FAN_SPEED n = (r, n', ev) ->
  async_get_fan repr json_loads net self n
  = (match r with
     | Return v => Return (fan_of_pin_value repr v)
     | Raise e =>
         Raise (BlynkServiceError ("Failed to get fan speed: " ++ exn_str e))
     end, n', ev).
Proof.
  intros E. unfold async_get_fan, try_except, bind. rewrite E.
  destruct r; unfold ret, raise; simpl; now rewrite app_nil_r.
Qed.

Lemma get_power_raises (n n' : nat) (e : exn) (ev : list event) :
  async_get_power repr json_loads net self n = (Raise e, n', ev) ->
  exists m, e = BlynkServiceError m.
Proof.
  destruct (async_get_pin_value repr json_loads net self PIN_POWER n)
    as [[r n1] ev1] eqn:E.
  rewrite (get_power_after_get _ _ _ _ E).
  destruct r; intros H; inversion H; eauto.
Qed.

Lemma get_fan_raises (n n' : nat) (e : exn) (ev : list event) :
  async_get_fan repr json_loads net self n = (Raise e, n', ev) ->
  exists m, e = BlynkServiceError m.
Proof.
  destruct (async_get_pin_value repr json_loads net self PIN_FAN_SPEED n)
    as [[r n1] ev1] eqn:E.
  rewrite (get_fan_after_get _ _ _ _ E).
  destruct r; intros H; inversion H; eauto.
Qed.

End Adapter.

(* ===================================================================== *)
(** ** Decoding a response *)
(* ===================================================================== *)



Lemma chars_length (s : string) :
  List.length (PyStr.chars s) = String.length s.
Proof.
  unfold PyStr.chars. induction s as [|x s IH]; simpl;
    [reflexivity | now rewrite IH].
Qed.




Example get_decodes_samples :
  fst (fst (async_get_pin_value demo_repr json_sample (net_const (ok " 007 "))
              demo_service PIN_POWER 0%nat)) = Return (PyInt 7)
  /\ fst (fst (async_get_pin_value demo_repr json_sample (net_const (ok "off"))
                 demo_service PIN_POWER 0%nat)) = Return (PyStr "off")
  /\ fst (fst (async_get_pin_value demo_repr json_sample (net_const (ok "[1]"))
                 demo_service PIN_POWER 0%nat)) = Return (PyInt 1)
  /\ fst (fst (async_get_pin_value demo_repr json_sample (net_const (ok "[]"))
                 demo_service PIN_POWER 0%nat)) = Return (PyStr "[]")
  /\ fst (fst (async_get_pin_value demo_repr json_sample (net_const (ok "-5"))
                 demo_service PIN_POWER 0%nat)) = Return (PyStr "-5")
  /\ fst (fst (async_get_pin_value demo_repr json_sample (net_const (ok "1 2"))
                 demo_service PIN_POWER 0%nat)) = Return (PyStr "1 2").
Proof. repeat split. Qed.

(** C1, at the input where the code leaves it.  A 200 answer whose body is
    the one character U+00B2 (superscript two) passes [isdigit()], and
    [int()] rejects it: the get does not return an integer, a string or the
    trimmed text, it raises [BlynkServiceError] with the message of the
    [ValueError]. *)
Theorem get_pin_value_superscript_digit :
  forall repr json_loads self pin n,
    PyStr.isdigit (PyStr.strip sup2) = true
    /\ PyStr.isalpha (PyStr.strip sup2) = false
    /\ async_get_pin_value repr json_loads (net_const (ok sup2)) self pin n
       = (Raise (BlynkServiceError
                   ("Failed to get pin value for " ++ pin
                    ++ ": invalid literal for int() with base 10: '"
                    ++ sup2 ++ "'")),
          S n, [Request (get_url repr self pin)]).
Proof.
  intros. split; [reflexivity | split; [reflexivity|]].
  rewrite (get_first_try repr json_loads (net_const (ok sup2)) self pin sup2 n)
    by reflexivity.
  reflexivity.
Qed.

(* ===================================================================== *)
(** ** Power *)
(* ===================================================================== *)

(** C2.  When the get of the power pin returns the value [v],
    [async_get_power] returns true if [v == 1] or [v == "1"] holds and false
    otherwise.  For an int that is the case for 1 alone, for a str for "1"
    alone; among all values, [==] also makes the boolean true and a float of
    value one equal to 1.  The strings "0", "2", "off" and the ints 0 and 2
    give false. *)
Theorem get_power_true_iff_one :
  forall repr json_loads net self n v n' ev,
    async_get_pin_value repr json_loads net self PIN_POWER n
    = (Return v, n', ev) ->
    async_get_power repr json_loads net self n
    = (Return (power_of_pin_value v), n', ev)
    /\ (power_of_pin_value v = true
        <-> eq_int v 1 = true \/ eq_str v "1" = true)
    /\ (forall z, v = PyInt z -> (power_of_pin_value v = true <-> z = 1))
    /\ (forall s, v = PyStr s -> (power_of_pin_value v = true <-> s = "1"))
    /\ (power_of_pin_value v = true
        <-> v = PyInt 1 \/ v = PyStr "1" \/ v = PyBool true
            \/ exists f, v = PyFloat f /\ float_eq_int f 1 = true)
    /\ power_of_pin_value (PyStr "0") = false
    /\ power_of_pin_value (PyStr "2") = false
    /\ power_of_pin_value (PyStr "off") = false
    /\ power_of_pin_value (PyInt 0) = false
    /\ power_of_pin_value (PyInt 2) = false.
Proof.
  intros repr json_loads net self n v n' ev E.
  split; [exact (get_power_after_get _ _ _ _ _ _ _ _ E)|].
  split; [unfold power_of_pin_value; apply orb_true_iff|].
  split.
  { intros z ->. unfold power_of_pin_value; simpl.
    rewrite orb_false_r. apply Z.eqb_eq. }
  split.
  { intros s ->. unfold power_of_pin_value; simpl. apply String.eqb_eq. }
  split.
  { unfold power_of_pin_value. rewrite orb_true_iff. split.
    - intros [H|H].
      + destruct v as [|b|z|f|s|l|d]; simpl in H; try discriminate.
        * destruct b; [auto | discriminate].
        * apply Z.eqb_eq in H. subst; auto.
        * right; right; right. eauto.
      + destruct v; simpl in H; try discriminate.
        apply String.eqb_eq in H. subst; auto.
    - intros [->|[->|[->|[f [-> H]]]]]; simpl; auto. }
  repeat split.
Qed.

Lemma get_power_true_iff_one_witness :
  async_get_power demo_repr no_json (net_const (ok "1")) demo_service 0%nat
  = (Return true, 1%nat, [Request (get_url demo_repr demo_service PIN_POWER)]).
Proof.
  destruct (get_power_true_iff_one demo_repr no_json (net_const (ok "1"))
              demo_service 0%nat (PyInt 1) 1%nat
              [Request (get_url demo_repr demo_service PIN_POWER)])
    as [H _].
  - reflexivity.
  - exact H.
Defined.

(* ===================================================================== *)
(** ** HTTP status errors *)
(* ===================================================================== *)

Section Status.

Variable net : transport.
Variables (url : string) (retries : Z) (n : nat) (r : response).
Hypothesis retries_pos : 1 <= retries.
Hypothesis responds : net n url = Responds r.

Ltac first_attempt :=
  unfold _make_request_with_retry;
  destruct (Z.to_nat retries) as [|todo] eqn:E; [lia|];
  cbn [retry_loop]; run_coro; rewrite responds;
  destruct r as [s t]; simpl in *.

Lemma request_401 :
  status r = 401 ->
  _make_request_with_retry net url retries n
  = (Raise (BlynkServiceError "Invalid authentication token"),
     S n, [Request url]).
Proof. first_attempt. intros ->. reflexivity. Qed.

Lemma request_400 :
  status r = 400 ->
  _make_request_with_retry net url retries n
  = (Raise (BlynkServiceError "Bad request - check device token and pin"),
     S n, [Request url]).
Proof. first_attempt. intros ->. reflexivity. Qed.

Lemma request_other_status (b : string) :
  status r <> 200 -> status r <> 401 -> status r <> 400 ->
  text r = Text b ->
  _make_request_with_retry net url retries n
  = (Raise (BlynkServiceError
              ("HTTP " ++ PyStr.str_of_int (status r) ++ ": " ++ b)),
     S n, [Request url]).
Proof.
  first_attempt. intros H200 H401 H400 ->.
  apply Z.eqb_neq in H200, H401, H400. rewrite H200, H401, H400.
  reflexivity.
Qed.

End Status.

Section SetPin.

Variable repr : pyobj -> string.
Variable net : transport.
Variables (self : BlynkService) (pin : string) (value : pyobj).

Lemma set_after_request (n n' : nat) (r : result string) (ev : list event) :
  _make_request_with_retry net (set_url repr self pin value) MAX_RETRIES n
  = (r, n', ev) ->
  async_set_pin_value repr net self pin value n
  = (match r with
     | Return t => Return t
     | Raise (BlynkServiceError m) => Raise (BlynkServiceError m)
     | Raise e =>
         Raise (BlynkServiceError
                  ("Failed to set pin value for " ++ pin ++ ": " ++ exn_str e))
     end, n', ev).
Proof.
  intros E. unfold async_set_pin_value, try_except, bind. rewrite E.
  destruct r as [t|e].
  - unfold ret. simpl. now rewrite app_nil_r.
  - destruct e; unfold raise; simpl; now rewrite app_nil_r.
Qed.

End SetPin.

(** C4.  A 401 or 400 answer makes [async_get_pin_value] and
    [async_set_pin_value] fail on the spot: one request, no pause, no second
    attempt.  The three kinds of status error carry three different messages:
    401 the authentication message, 400 the bad-request message, any other
    status but 200 the message [HTTP <status>: <body>]. *)
Theorem status_errors_fail_at_once :
  forall repr json_loads net self pin value (n : nat) (r : response),
    net n (get_url repr self pin) = Responds r ->
    net n (set_url repr self pin value) = Responds r ->
    (status r = 401 ->
       fails_at_once (async_get_pin_value repr json_loads net self pin n)
         n (get_url repr self pin) "Invalid authentication token"
       /\ fails_at_once (async_set_pin_value repr net self pin value n)
            n (set_url repr self pin value) "Invalid authentication token")
    /\ (status r = 400 ->
       fails_at_once (async_get_pin_value repr json_loads net self pin n)
         n (get_url repr self pin) "Bad request - check device token and pin"
       /\ fails_at_once (async_set_pin_value repr net self pin value n)
            n (set_url repr self pin value)
            "Bad request - check device token and pin")
    /\ (forall b,
          status r <> 200 -> status r <> 401 -> status r <> 400 ->
          text r = Text b ->
          fails_at_once (async_get_pin_value repr json_loads net self pin n)
            n (get_url repr self pin)
            ("HTTP " ++ PyStr.str_of_int (status r) ++ ": " ++ b)
          /\ fails_at_once (async_set_pin_value repr net self pin value n)
               n (set_url repr self pin value)
               ("HTTP " ++ PyStr.str_of_int (status r) ++ ": " ++ b))
    /\ (forall s b,
          "Invalid authentication token"
            <> "Bad request - check device token and pin"
          /\ "HTTP " ++ PyStr.str_of_int s ++ ": " ++ b
               <> "Invalid authentication token"
          /\ "HTTP " ++ PyStr.str_of_int s ++ ": " ++ b
               <> "Bad request - check device token and pin").
Proof.
  intros repr json_loads net self pin value n r Hget Hset.
  assert (Hret : 1 <= MAX_RETRIES) by (unfold MAX_RETRIES; lia).
  unfold fails_at_once.
  repeat split; try discriminate.
  - rewrite (get_after_request repr json_loads net self pin n _ _ _
               (request_401 net _ _ n r Hret Hget H)); reflexivity.
  - rewrite (set_after_request repr net self pin value n _ _ _
               (request_401 net _ _ n r Hret Hset H)); reflexivity.
  - rewrite (get_after_request repr json_loads net self pin n _ _ _
               (request_400 net _ _ n r Hret Hget H)); reflexivity.
  - rewrite (set_after_request repr net self pin value n _ _ _
               (request_400 net _ _ n r Hret Hset H)); reflexivity.
  - rewrite (get_after_request repr json_loads net self pin n _ _ _
               (request_other_status net _ _ n r Hret Hget b H H0 H1 H2));
      reflexivity.
  - rewrite (set_after_request repr net self pin value n _ _ _
               (request_other_status net _ _ n r Hret Hset b H H0 H1 H2));
      reflexivity.
Qed.

Lemma status_errors_fail_at_once_witness :
  async_get_pin_value demo_repr no_json (net_const (http 401 "")) demo_service
    PIN_POWER 0%nat
  = (Raise (BlynkServiceError "Invalid authentication token"), 1%nat,
     [Request (get_url demo_repr demo_service PIN_POWER)])
  /\ async_set_pin_value demo_repr (net_const (http 401 "")) demo_service
       PIN_POWER (PyInt 1) 0%nat
     = (Raise (BlynkServiceError "Invalid authentication token"), 1%nat,
        [Request (set_url demo_repr demo_service PIN_POWER (PyInt 1))]).
Proof.
  destruct (status_errors_fail_at_once demo_repr no_json
              (net_const (http 401 "")) demo_service PIN_POWER (PyInt 1)
              0%nat {| status := 401; text := Text "" |}
              eq_refl eq_refl) as [H _].
  exact (H eq_refl).
Defined.

(* ===================================================================== *)
(** ** Retries *)
(* ===================================================================== *)




(** C10, as the code has it.  With a retry count of at least 1 the loop
    never runs to its end: it is left from inside, by the return of the
    response text, by a [BlynkServiceError] other than the one of the final
    statement, or by an exception of the HTTP library that is not a client
    error and passes through the loop unchanged.  The final [raise] is not
    reached. *)
Theorem retry_loop_left_from_inside :
  forall net url retries (n : nat),
    1 <= retries ->
    fst (fst (retry_loop net url retries 0 (Z.to_nat retries) n))
    <> Return None
    /\ loop_exit (fst (fst (_make_request_with_retry net url retries n)))
    /\ fst (fst (_make_request_with_retry net url retries n))
       <> Raise (BlynkServiceError "Max retries exceeded").
Proof.
  intros net url retries n Hret.
  split; [|split].
  - destruct (retry_loop_shape net url retries (Z.to_nat retries) 0 n)
      as (k & r & _ & E & _); try lia.
    rewrite E. destruct r; discriminate.
  - destruct (request_shape net url retries n Hret) as (k & r & _ & E & Hx & _).
    now rewrite E.
  - destruct (request_shape net url retries n Hret) as (k & r & _ & E & Hx & _).
    rewrite E. simpl. intros ->. inversion Hx. congruence.
Qed.

Lemma retry_loop_left_from_inside_witness :
  fst (fst (_make_request_with_retry (net_const (client_error "down"))
              "u" 3 0%nat))
  <> Raise (BlynkServiceError "Max retries exceeded").
Proof.
  destruct (retry_loop_left_from_inside (net_const (client_error "down"))
              "u" 3 0%nat) as (_ & _ & H).
  - discriminate.
  - exact H.
Defined.

(** C10, as the claim words it, fails: an exception of the HTTP library that
    is no client error leaves the loop as it is, so the loop neither returns
    the text nor raises a [BlynkServiceError]. *)
Lemma retry_loop_may_raise_unclassified :
  _make_request_with_retry
    (net_const (GetRaises (HttpOtherError "timed out"))) "u" 3 0%nat
  = (Raise (OtherException "timed out"), 1%nat, [Request "u"])
  /\ ~ ((exists t,
           fst (fst (_make_request_with_retry
                       (net_const (GetRaises (HttpOtherError "timed out")))
                       "u" 3 0%nat)) = Return t)
        \/ (exists m,
              fst (fst (_make_request_with_retry
                          (net_const (GetRaises (HttpOtherError "timed out")))
                          "u" 3 0%nat)) = Raise (BlynkServiceError m))).
Proof.
  split; [reflexivity|].
  intros [[t H]|[m H]]; discriminate H.
Qed.

(* ===================================================================== *)
(** ** The refresh cycle *)
(* ===================================================================== *)

Section Cycle.

Variable repr : pyobj -> string.
Variable json_loads : string -> loads_result.
Variable net : transport.
Variable self : Coordinator.

Lemma update_data_by_cases (n : nat) :
  _async_update_data repr json_loads net self n
  = match async_get_power repr json_loads net (blynk_service self) n with
    | (Raise e, n1, ev1) => (Raise (communication_error e), n1, ev1)
    | (Return power_state, n1, ev1) =>
        match async_get_fan repr json_loads net (blynk_service self) n1 with
        | (Raise e, n2, ev2) =>
            (Raise (communication_error e), n2, (ev1 ++ ev2)%list)
        | (Return fan_speed, n2, ev2) =>
            (Return {| power := power_state; fan := fan_speed |},
             n2, (ev1 ++ ev2)%list)
        end
    end.
Proof.
  unfold _async_update_data, try_except, bind at 1.
  destruct (async_get_power repr json_loads net (blynk_service self) n)
    as [[[p|e] n1] ev1] eqn:P.
  - unfold bind.
    destruct (async_get_fan repr json_loads net (blynk_service self) n1)
      as [[[f|e] n2] ev2] eqn:F.
    + unfold ret. simpl. now rewrite app_nil_r.
    + destruct (get_fan_raises _ _ _ _ _ _ _ _ F) as [m ->].
      unfold raise. simpl. now rewrite app_nil_r.
  - destruct (get_power_raises _ _ _ _ _ _ _ _ P) as [m ->].
    unfold raise. simpl. now rewrite app_nil_r.
Qed.

End Cycle.

(** C5.  A refresh cycle reads the power, then the speed.  If the power read
    fails the cycle fails with [UpdateFailed] and the speed is not read; if
    the speed read fails the cycle fails with [UpdateFailed]; no data is
    returned in either case.  Only when both reads succeed does the cycle
    return a snapshot, and it holds exactly the two readings.  Nothing but
    [UpdateFailed] ever leaves the cycle. *)
Theorem refresh_cycle_all_or_nothing :
  forall repr json_loads net self (n : nat),
    _async_update_data repr json_loads net self n
    = match async_get_power repr json_loads net (blynk_service self) n with
      | (Raise e, n1, ev1) => (Raise (communication_error e), n1, ev1)
      | (Return power_state, n1, ev1) =>
          match async_get_fan repr json_loads net (blynk_service self) n1 with
          | (Raise e, n2, ev2) =>
              (Raise (communication_error e), n2, (ev1 ++ ev2)%list)
          | (Return fan_speed, n2, ev2) =>
              (Return {| power := power_state; fan := fan_speed |},
               n2, (ev1 ++ ev2)%list)
          end
      end
    /\ (forall e,
          fst (fst (_async_update_data repr json_loads net self n)) = Raise e ->
          exists m, e = UpdateFailed m)
    /\ (forall snapshot,
          fst (fst (_async_update_data repr json_loads net self n))
          = Return snapshot ->
          exists n1 ev1 n2 ev2,
            async_get_power repr json_loads net (blynk_service self) n
            = (Return (power snapshot), n1, ev1)
            /\ async_get_fan repr json_loads net (blynk_service self) n1
               = (Return (fan snapshot), n2, ev2)).
Proof.
  intros repr json_loads net self n.
  split; [apply update_data_by_cases|].
  rewrite update_data_by_cases.
  destruct (async_get_power repr json_loads net (blynk_service self) n)
    as [[[p|e] n1] ev1] eqn:P.
  - destruct (async_get_fan repr json_loads net (blynk_service self) n1)
      as [[[f|e] n2] ev2] eqn:F; simpl; split; intros x H; inversion H; subst.
    + exists n1, ev1, n2, ev2. simpl. now rewrite F.
    + unfold communication_error. eauto.
  - simpl. split; intros x H; inversion H.
    unfold communication_error. eauto.
Qed.

Example refresh_fails_on_speed_read :
  _async_update_data demo_repr no_json
    (net_script [ok "1"] (http 401 "")) demo_coordinator 0%nat
  = (Raise (UpdateFailed
              "Error communicating with Windmill device: Failed to get fan speed: Invalid authentication token"),
     2%nat,
     [ Request (get_url demo_repr demo_service PIN_POWER);
       Request (get_url demo_repr demo_service PIN_FAN_SPEED) ]).
Proof. reflexivity. Qed.

Example refresh_succeeds :
  _async_update_data demo_repr no_json
    (net_script [ok "0"] (ok "4")) demo_coordinator 0%nat
  = (Return {| power := false; fan := "High" |}, 2%nat,
     [ Request (get_url demo_repr demo_service PIN_POWER);
       Request (get_url demo_repr demo_service PIN_FAN_SPEED) ]).
Proof. reflexivity. Qed.

(** C6.  When a refresh fails on a coordinator that holds a snapshot, the
    coordinator still holds that snapshot afterwards, the refresh is marked
    unsuccessful and the entity reports itself unavailable; what the entity
    reads from the snapshot is as before. *)
Theorem failed_refresh_keeps_snapshot :
  forall repr json_loads net self (n n' : nat) prior e ev,
    data self = Some prior ->
    _async_update_data repr json_loads net self n = (Raise e, n', ev) ->
    exists self',
      async_refresh repr json_loads net self n = (Return self', n', ev)
      /\ data self' = Some prior
      /\ last_update_success self' = false
      /\ available self' = false
      /\ is_on self' = is_on self
      /\ preset_mode self' = preset_mode self.
Proof.
  intros repr json_loads net self n n' prior e ev Hdata Hfail.
  unfold async_refresh. rewrite Hfail.
  eexists. split; [reflexivity|].
  unfold available, is_on, preset_mode, is_on. simpl.
  now rewrite Hdata.
Qed.

Lemma failed_refresh_keeps_snapshot_witness :
  exists self',
    async_refresh demo_repr no_json (net_const (client_error "down"))
      demo_coordinator 0%nat
    = (Return self', 3%nat,
       attempts_trace (get_url demo_repr demo_service PIN_POWER) 2)
    /\ data self' = Some {| power := true; fan := "High" |}
    /\ last_update_success self' = false
    /\ available self' = false
    /\ is_on self' = is_on demo_coordinator
    /\ preset_mode self' = preset_mode demo_coordinator.
Proof.
  apply (failed_refresh_keeps_snapshot demo_repr no_json
           (net_const (client_error "down")) demo_coordinator 0%nat 3%nat
           {| power := true; fan := "High" |}
           (communication_error
              (BlynkServiceError
                 "Failed to get power state: Request failed after 3 attempts: down"))).
  - reflexivity.
  - reflexivity.
Defined.

(* ===================================================================== *)
(** ** The speed tables *)
(* ===================================================================== *)

Lemma lookup_cases {V : Type} (d : list (string * V)) (k : string) :
  (exists v, In (k, v) d /\ PyDict.lookup String.eqb d k = Some v)
  \/ (~ In k (PyDict.keys d) /\ PyDict.lookup String.eqb d k = None).
Proof.
  induction d as [|[k' v'] d IH]; simpl.
  - right. auto.
  - destruct (String.eqb_spec k' k) as [->|Hne].
    + left. eauto.
    + destruct IH as [(v & Hin & E) | [Hn E]].
      * left. eauto.
      * right. split; [intros [?|?]; auto | exact E].
Qed.

Lemma forward_pairs :
  FAN_SPEED_MAPPING
  = [ ("Whisper", "1"); ("Low", "2"); ("Medium", "3"); ("High", "4");
      ("Boost", "5") ].
Proof. reflexivity. Qed.

Ltac table_cases H :=
  cbn [In] in H;
  destruct H as [H|[H|[H|[H|[H|[]]]]]];
  injection H as ? ?; subst.

(** C7.  [async_get_fan] turns the decoded pin value into text and looks it
    up in the reverse table: the codes 1 to 5 give their level name, every
    other text gives Medium; the result is always one of the five names.
    [async_set_fan] writes to pin V2 the code of the table for one of the
    five names and the code 3 for any other name; for a name outside the
    table it does exactly what it does for Medium, so the name itself never
    makes it fail. *)
Theorem speed_tables_fall_back_to_medium :
  forall repr json_loads net self,
    (forall v,
       In (str repr v, fan_of_pin_value repr v)
          [ ("1", "Whisper"); ("2", "Low"); ("3", "Medium"); ("4", "High");
            ("5", "Boost") ]
       \/ (~ In (str repr v) ["1"; "2"; "3"; "4"; "5"]
           /\ fan_of_pin_value repr v = "Medium"))
    /\ (forall v, In (fan_of_pin_value repr v) (PyDict.keys FAN_SPEED_MAPPING))
    /\ (forall n v n' ev,
          async_get_pin_value repr json_loads net self PIN_FAN_SPEED n
          = (Return v, n', ev) ->
          async_get_fan repr json_loads net self n
          = (Return (fan_of_pin_value repr v), n', ev))
    /\ (forall value code,
          In (value, code)
             [ ("Whisper", "1"); ("Low", "2"); ("Medium", "3"); ("High", "4");
               ("Boost", "5") ] ->
          async_set_fan repr net self value
          = (async_set_pin_value repr net self PIN_FAN_SPEED (PyStr code)
             ;;; ret tt))
    /\ (forall value,
          ~ In value ["Whisper"; "Low"; "Medium"; "High"; "Boost"] ->
          async_set_fan repr net self value
          = (async_set_pin_value repr net self PIN_FAN_SPEED (PyStr "3")
             ;;; ret tt)
          /\ async_set_fan repr net self value
             = async_set_fan repr net self "Medium")
    /\ set_url repr self PIN_FAN_SPEED (PyStr "3")
       = server self ++ "/external/api/update?"
         ++ ("token=" ++ Urllib.quote_plus (token self)) ++ "&V2=3".
Proof.
  intros repr json_loads net self.
  split; [|split; [|split; [|split; [|split]]]].
  - intros v. unfold fan_of_pin_value, PyDict.get.
    destruct (lookup_cases FAN_SPEED_REVERSE_MAPPING (str repr v))
      as [(name & Hin & ->) | [Hn ->]].
    + left. rewrite reverse_mapping_value in Hin.
      cbn [In] in Hin.
      destruct Hin as [H|[H|[H|[H|[H|[]]]]]]; injection H as H1 H2;
        subst name; rewrite <- H1; simpl; auto 10.
    + right. split; [exact Hn | reflexivity].
  - intros v. unfold fan_of_pin_value, PyDict.get.
    destruct (lookup_cases FAN_SPEED_REVERSE_MAPPING (str repr v))
      as [(name & Hin & ->) | [_ ->]].
    + rewrite reverse_mapping_value in Hin. table_cases Hin; simpl; auto 10.
    + simpl; auto 10.
  - intros n v n' ev E.
    exact (get_fan_after_get repr json_loads net self n n' (Return v) ev E).
  - intros value code H. unfold async_set_fan.
    table_cases H; reflexivity.
  - intros value H. unfold async_set_fan, PyDict.get.
    destruct (lookup_cases FAN_SPEED_MAPPING value) as [(c & Hin & _) | [_ ->]].
    + exfalso. apply H. rewrite forward_pairs in Hin.
      table_cases Hin; simpl; auto 10.
    + split; reflexivity.
  - reflexivity.
Qed.

Lemma speed_tables_fall_back_to_medium_witness :
  async_set_fan demo_repr (net_const (ok "")) demo_service "Turbo" 0%nat
  = (Return tt, 1%nat,
     [Request "https://dashboard.windmillair.com/external/api/update?token=abcd1234ef&V2=3"])
  /\ async_get_fan demo_repr no_json (net_const (ok "9")) demo_service 0%nat
     = (Return "Medium", 1%nat,
        [Request "https://dashboard.windmillair.com/external/api/get?token=abcd1234ef&V2"]).
Proof.
  destruct (speed_tables_fall_back_to_medium demo_repr no_json
              (net_const (ok "9")) demo_service) as (_ & _ & Hget & _).
  destruct (speed_tables_fall_back_to_medium demo_repr no_json
              (net_const (ok "")) demo_service) as (_ & _ & _ & _ & Hset & _).
  split.
  - destruct (Hset "Turbo") as [-> _].
    + simpl. intuition discriminate.
    + reflexivity.
  - rewrite (Hget 0%nat (PyInt 9) 1%nat
               [Request (get_url demo_repr demo_service PIN_FAN_SPEED)]
               eq_refl).
    reflexivity.
Defined.



(* ===================================================================== *)
(** ** The adapter as a whole *)
(* ===================================================================== *)

Lemma requested_attempts (url : string) (k : nat) :
  requested (attempts_trace url k) = repeat url (S k).
Proof.
  induction k as [|k IH]; [reflexivity|].
  cbn [attempts_trace]. change (requested (Request url :: Sleep 1 :: ?l))
    with (url :: requested l). now rewrite IH.
Qed.

Lemma slept_attempts (url : string) (k : nat) :
  slept (attempts_trace url k) = Z.of_nat k.
Proof.
  induction k as [|k IH]; [reflexivity|].
  cbn [attempts_trace slept fold_right]. fold (slept (attempts_trace url k)).
  rewrite IH. lia.
Qed.

Section Writes.

Variable repr : pyobj -> string.
Variable json_loads : string -> loads_result.
Variable net : transport.
Variable self : BlynkService.

Lemma get_shape (pin : string) (n : nat) :
  exists (a : nat) (r : result pyobj),
    (a < 3)%nat
    /\ async_get_pin_value repr json_loads net self pin n
       = (r, (n + S a)%nat, attempts_trace (get_url repr self pin) a)
    /\ classified r.
Proof.
  destruct (request_shape net (get_url repr self pin) MAX_RETRIES n)
    as (a & r & Ha & E & Hx & _); [unfold MAX_RETRIES; lia|].
  exists a. eexists. split; [unfold MAX_RETRIES in Ha; lia|].
  split; [apply (get_after_request repr json_loads net self pin n _ _ _ E)|].
  destruct Hx as [t|m Hm|m]; simpl; auto.
  unfold decode. now destruct (parse_response json_loads t).
Qed.

Lemma set_shape (pin : string) (value : pyobj) (n : nat) :
  exists (a : nat) (r : result string),
    (a < 3)%nat
    /\ async_set_pin_value repr net self pin value n
       = (r, (n + S a)%nat, attempts_trace (set_url repr self pin value) a)
    /\ classified r
    /\ (forall j, (j < a)%nat ->
          transport_failure (net (n + j)%nat (set_url repr self pin value))
          = true).
Proof.
  destruct (request_shape net (set_url repr self pin value) MAX_RETRIES n)
    as (a & r & Ha & E & Hx & Hall); [unfold MAX_RETRIES; lia|].
  exists a. eexists. split; [unfold MAX_RETRIES in Ha; lia|].
  split; [apply (set_after_request repr net self pin value n _ _ _ E)|].
  split; [|exact Hall].
  destruct Hx as [t|m Hm|m]; simpl; auto.
Qed.

Lemma set_first_try (pin : string) (value : pyobj) (body : string)
    (n : nat) :
  net n (set_url repr self pin value) = ok body ->
  async_set_pin_value repr net self pin value n
  = (Return (PyStr.strip body), S n, [Request (set_url repr self pin value)]).
Proof.
  intros H.
  rewrite (set_after_request repr net self pin value n _ _ _
             (request_first_try net _ body MAX_RETRIES n
                ltac:(unfold MAX_RETRIES; lia) H)).
  reflexivity.
Qed.

End Writes.

(** X1.  Whatever the network does, a pin write issues one to three requests,
    all to the same update URL, pauses one second between two consecutive
    ones, tries again only after a transport failure, and ends in a text or
    in a [BlynkServiceError]; a 200 answer to the first request makes it
    return the trimmed body. *)
Theorem set_pin_value_policy :
  forall repr net self pin value (n : nat),
    (exists (a : nat) (r : result string),
       (a < 3)%nat
       /\ async_set_pin_value repr net self pin value n
          = (r, (n + S a)%nat, attempts_trace (set_url repr self pin value) a)
       /\ requested (attempts_trace (set_url repr self pin value) a)
          = repeat (set_url repr self pin value) (S a)
       /\ slept (attempts_trace (set_url repr self pin value) a) = Z.of_nat a
       /\ classified r
       /\ (forall j, (j < a)%nat ->
             transport_failure (net (n + j)%nat (set_url repr self pin value))
             = true))
    /\ (forall body,
          net n (set_url repr self pin value) = ok body ->
          async_set_pin_value repr net self pin value n
          = (Return (PyStr.strip body), S n,
             [Request (set_url repr self pin value)])).
Proof.
  intros repr net self pin value n. split.
  - destruct (set_shape repr net self pin value n)
      as (a & r & Ha & E & Hc & Hall).
    exists a, r.
    repeat split; auto using requested_attempts, slept_attempts.
  - intros body H. now apply set_first_try.
Qed.

Section Reads.

Variable repr : pyobj -> string.
Variable json_loads : string -> loads_result.
Variable net : transport.
Variable self : BlynkService.

Lemma get_power_shape (n : nat) :
  exists (a : nat) (r : result bool),
    (a < 3)%nat
    /\ async_get_power repr json_loads net self n
       = (r, (n + S a)%nat, attempts_trace (get_url repr self PIN_POWER) a)
    /\ classified r.
Proof.
  destruct (get_shape repr json_loads net self PIN_POWER n)
    as (a & r & Ha & E & Hc).
  exists a. eexists. split; [exact Ha|].
  split; [apply (get_power_after_get _ _ _ _ _ _ _ _ E)|].
  now destruct r.
Qed.

Lemma get_fan_shape (n : nat) :
  exists (a : nat) (r : result string),
    (a < 3)%nat
    /\ async_get_fan repr json_loads net self n
       = (r, (n + S a)%nat, attempts_trace (get_url repr self PIN_FAN_SPEED) a)
    /\ classified r.
Proof.
  destruct (get_shape repr json_loads net self PIN_FAN_SPEED n)
    as (a & r & Ha & E & Hc).
  exists a. eexists. split; [exact Ha|].
  split; [apply (get_fan_after_get _ _ _ _ _ _ _ _ E)|].
  now destruct r.
Qed.

End Reads.

(** X2.  The coroutines of the adapter raise nothing but
    [BlynkServiceError]: an exception of any other class, out of the HTTP
    library, [int()] or [json.loads], is wrapped before it leaves a pin read,
    a pin write, a power or speed read or write. *)
Theorem adapter_raises_only_blynk_errors :
  forall repr json_loads net self pin value (b : bool) (level : string)
         (n : nat),
    classified (fst (fst (async_get_pin_value repr json_loads net self pin n)))
    /\ classified (fst (fst (async_set_pin_value repr net self pin value n)))
    /\ classified (fst (fst (async_get_power repr json_loads net self n)))
    /\ classified (fst (fst (async_get_fan repr json_loads net self n)))
    /\ classified (fst (fst (async_set_power repr net self b n)))
    /\ classified (fst (fst (async_set_fan repr net self level n))).
Proof.
  intros repr json_loads net self pin value b level n.
  split; [|split; [|split; [|split; [|split]]]].
  - destruct (get_shape repr json_loads net self pin n) as (a & r & _ & E & H).
    now rewrite E.
  - destruct (set_shape repr net self pin value n) as (a & r & _ & E & H & _).
    now rewrite E.
  - destruct (get_power_shape repr json_loads net self n) as (a & r & _ & E & H).
    now rewrite E.
  - destruct (get_fan_shape repr json_loads net self n) as (a & r & _ & E & H).
    now rewrite E.
  - unfold async_set_power, bind.
    destruct (set_shape repr net self PIN_POWER
                (PyInt (PyDict.get Bool.eqb POWER_MAPPING b 0)) n)
      as (a & r & _ & E & H & _).
    rewrite E. now destruct r.
  - unfold async_set_fan, bind.
    destruct (set_shape repr net self PIN_FAN_SPEED
                (PyStr (PyDict.get String.eqb FAN_SPEED_MAPPING level "3")) n)
      as (a & r & _ & E & H & _).
    rewrite E. now destruct r.
Qed.

Lemma validate_token_shape :
  forall repr json_loads net self (n : nat),
    exists (a : nat) (valid : bool),
      (a < 3)%nat
      /\ async_validate_token repr json_loads net self n
         = (Return valid, (n + S a)%nat,
            attempts_trace (get_url repr self PIN_POWER) a)
      /\ requested (attempts_trace (get_url repr self PIN_POWER) a)
         = repeat (get_url repr self PIN_POWER) (S a)
      /\ (valid = true
          <-> exists p,
                fst (fst (async_get_power repr json_loads net self n))
                = Return p).
Proof.
  intros repr json_loads net self n.
  destruct (get_power_shape repr json_loads net self n)
    as (a & r & Ha & E & Hc).
  exists a. unfold async_validate_token, try_except, bind. rewrite E.
  destruct r as [p|e].
  - exists true. unfold ret. simpl. rewrite app_nil_r.
    repeat split; auto using requested_attempts. eauto.
  - destruct e; try contradiction.
    exists false. unfold ret. simpl. rewrite app_nil_r.
    repeat split; auto using requested_attempts; try discriminate.
    intros [p H]. discriminate.
Qed.

(** X3.  [async_validate_token] never raises.  It answers true exactly when
    the power read returns a value (whatever the value), false when the read
    fails; it sends nothing but reads of the power pin, one to three of
    them. *)
Theorem validate_token_never_raises :
  forall repr json_loads net self (n : nat),
    exists (a : nat) (valid : bool),
      (a < 3)%nat
      /\ async_validate_token repr json_loads net self n
         = (Return valid, (n + S a)%nat,
            attempts_trace (get_url repr self PIN_POWER) a)
      /\ requested (attempts_trace (get_url repr self PIN_POWER) a)
         = repeat (get_url repr self PIN_POWER) (S a)
      /\ (valid = true
          <-> exists p,
                fst (fst (async_get_power repr json_loads net self n))
                = Return p).
Proof. exact validate_token_shape. Qed.

Lemma slept_app (l1 l2 : list event) :
  slept (l1 ++ l2) = slept l1 + slept l2.
Proof.
  induction l1 as [|[u|s] l1 IH]; simpl; [reflexivity | exact IH |].
  fold (slept (l1 ++ l2)) (slept l1). rewrite IH. lia.
Qed.

(** X4.  A refresh cycle is bounded.  It starts with the reads of the power
    pin, one to three of them; if the power read fails it stops there with
    [UpdateFailed]; otherwise one to three reads of the speed pin follow.  So
    a cycle issues at most six requests and pauses at most four seconds. *)
Theorem refresh_cycle_bounded :
  forall repr json_loads net self (n : nat),
    exists (a : nat),
      (a < 3)%nat
      /\ ((exists m,
             _async_update_data repr json_loads net self n
             = (Raise (UpdateFailed m), (n + S a)%nat,
                attempts_trace
                  (get_url repr (blynk_service self) PIN_POWER) a))
          \/ (exists (b : nat) r,
                (b < 3)%nat
                /\ _async_update_data repr json_loads net self n
                   = (r, (n + S a + S b)%nat,
                      (attempts_trace
                         (get_url repr (blynk_service self) PIN_POWER) a
                       ++ attempts_trace
                            (get_url repr (blynk_service self) PIN_FAN_SPEED)
                            b)%list)))
      /\ (snd (fst (_async_update_data repr json_loads net self n)) <= n + 6)%nat
      /\ slept (snd (_async_update_data repr json_loads net self n)) <= 4.
Proof.
  intros repr json_loads net self n.
  rewrite update_data_by_cases.
  destruct (get_power_shape repr json_loads net (blynk_service self) n)
    as (a & r & Ha & E & Hc).
  exists a. split; [exact Ha|]. rewrite E.
  destruct r as [p|e].
  - destruct (get_fan_shape repr json_loads net (blynk_service self)
                (n + S a)%nat) as (b & r & Hb & F & _).
    rewrite F.
    assert (Hs : slept (attempts_trace
                          (get_url repr (blynk_service self) PIN_POWER) a
                        ++ attempts_trace
                             (get_url repr (blynk_service self) PIN_FAN_SPEED)
                             b) <= 4).
    { rewrite slept_app, !slept_attempts. lia. }
    destruct r as [f|e]; simpl; (split; [right; exists b; eauto|]);
      split; (lia || exact Hs).
  - simpl. split; [left; unfold communication_error; eauto|].
    split; [lia|]. rewrite slept_attempts. lia.
Qed.

(* ===================================================================== *)
(** ** Request URLs *)
(* ===================================================================== *)

Lemma append_assoc (a b c : string) : (a ++ b) ++ c = a ++ b ++ c.
Proof. induction a as [|x a IH]; simpl; [reflexivity | now rewrite IH]. Qed.

Lemma quote_plus_char_query (c : ascii) :
  forallb query_char (Urllib.quote_plus_char c) = true.
Proof. destruct c as [[|] [|] [|] [|] [|] [|] [|] [|]]; reflexivity. Qed.

Lemma quote_plus_query (s : string) :
  forallb query_char (PyStr.chars (Urllib.quote_plus s)) = true.
Proof.
  unfold Urllib.quote_plus, PyStr.text, PyStr.chars.
  rewrite list_ascii_of_string_of_list_ascii.
  induction (list_ascii_of_string s) as [|c l IH]; [reflexivity|].
  simpl. rewrite forallb_app, IH, quote_plus_char_query. reflexivity.
Qed.

(** X5.  The URL of a write is the server, the update endpoint, the quoted
    token and the quoted pin and value, in this order, for every pin but the
    one named token; for the pin named token the value takes the place of the
    credentials.  The URL of a read ends in the pin as it is.  Whatever the
    token holds, its quoted form has none of the characters that structure a
    URL: only letters, digits, [_.-~], [+] and [%]. *)
Theorem request_url_form :
  forall repr self pin value,
    pin <> "token" ->
    set_url repr self pin value
    = server self ++ "/external/api/update?token="
      ++ Urllib.quote_plus (token self) ++ "&" ++ Urllib.quote_plus pin
      ++ "=" ++ Urllib.quote_plus (str repr value)
    /\ set_url repr self "token" value
       = server self ++ "/external/api/update?token="
         ++ Urllib.quote_plus (str repr value)
    /\ get_url repr self pin
       = server self ++ "/external/api/get?token="
         ++ Urllib.quote_plus (token self) ++ "&" ++ pin
    /\ forallb query_char (PyStr.chars (Urllib.quote_plus (token self))) = true
    /\ (forall c, In c (PyStr.chars (Urllib.quote_plus (token self))) ->
                  ~ In c (PyStr.chars "&=?#/ ")).
Proof.
  intros repr self pin value Hpin.
  assert (E : String.eqb "token" pin = false).
  { apply String.eqb_neq. congruence. }
  split; [|split; [|split; [|split]]].
  - unfold set_url, _get_request_url, Urllib.urlencode.
    cbn [PyDict.of_items fold_left PyDict.set fst snd]. rewrite E.
    cbn [map Urllib.join fst snd str].
    change (Urllib.quote_plus "token") with "token".
    rewrite ?append_assoc. reflexivity.
  - unfold set_url, _get_request_url, Urllib.urlencode.
    cbn [PyDict.of_items fold_left PyDict.set fst snd].
    change (String.eqb "token" "token") with true.
    cbn [map Urllib.join fst snd str].
    change (Urllib.quote_plus "token") with "token".
    rewrite ?append_assoc. reflexivity.
  - unfold get_url, _get_request_url, Urllib.urlencode.
    cbn [PyDict.of_items fold_left PyDict.set map Urllib.join fst snd str].
    change (Urllib.quote_plus "token") with "token".
    rewrite ?append_assoc. reflexivity.
  - apply quote_plus_query.
  - intros c Hc Hbad.
    pose proof (quote_plus_query (token self)) as H.
    rewrite forallb_forall in H. specialize (H c Hc).
    cbn [PyStr.chars list_ascii_of_string In] in Hbad.
    destruct Hbad as [<-|[<-|[<-|[<-|[<-|[<-|[]]]]]]]; discriminate H.
Qed.

Lemma request_url_form_witness :
  set_url demo_repr demo_service PIN_POWER (PyInt 1)
  = "https://dashboard.windmillair.com/external/api/update?token=abcd1234ef&V0=1".
Proof.
  destruct (request_url_form demo_repr demo_service PIN_POWER (PyInt 1))
    as [H _].
  - discriminate.
  - exact H.
Defined.

(* ===================================================================== *)
(** ** Trimming and integers *)
(* ===================================================================== *)

Section Strip.

Lemma chars_app (a b : string) :
  PyStr.chars (a ++ b) = (PyStr.chars a ++ PyStr.chars b)%list.
Proof.
  unfold PyStr.chars.
  induction a as [|x a IH]; simpl; [reflexivity | now rewrite IH].
Qed.

Lemma lstrip_blank_prefix (w l : list ascii) :
  blank w -> PyStr.lstrip_chars (w ++ l) = PyStr.lstrip_chars l.
Proof.
  unfold blank. induction w as [|c w IH]; simpl; [reflexivity|].
  intros H. apply andb_true_iff in H as [-> H]. now apply IH.
Qed.

Lemma lstrip_blank (w : list ascii) : blank w -> PyStr.lstrip_chars w = [].
Proof.
  intros H. rewrite <- (app_nil_r w). now rewrite lstrip_blank_prefix.
Qed.

Lemma blank_rev (w : list ascii) : blank w -> blank (rev w).
Proof.
  unfold blank. rewrite !forallb_forall. intros H x Hx.
  apply H. now apply in_rev.
Qed.

Lemma strip_blank_suffix (l w : list ascii) :
  blank w ->
  rev (PyStr.lstrip_chars (rev (PyStr.lstrip_chars (l ++ w))))
  = rev (PyStr.lstrip_chars (rev (PyStr.lstrip_chars l))).
Proof.
  intros Hw. induction l as [|c l IH].
  - simpl. now rewrite (lstrip_blank w Hw).
  - simpl. destruct (PyStr.isspace_char c); [exact IH|].
    change (c :: (l ++ w)%list) with ((c :: l) ++ w)%list.
    rewrite rev_app_distr.
    now rewrite (lstrip_blank_prefix (rev w) _ (blank_rev w Hw)).
Qed.

Lemma strip_surrounded (w1 s w2 : string) :
  blank (PyStr.chars w1) -> blank (PyStr.chars w2) ->
  PyStr.strip (w1 ++ s ++ w2) = PyStr.strip s.
Proof.
  intros H1 H2. unfold PyStr.strip.
  rewrite !chars_app, (lstrip_blank_prefix _ _ H1).
  now rewrite (strip_blank_suffix _ _ H2).
Qed.



End Strip.

(** X6.  Blanks around the body do not matter: a read answered with a text
    wrapped in white space (blanks, tabs, line ends) has the outcome of the
    read answered with the text alone, and so has a write. *)
Theorem surrounding_blanks_are_ignored :
  forall repr json_loads net net' self pin value (n : nat) (w1 body w2 : string),
    blank (PyStr.chars w1) -> blank (PyStr.chars w2) ->
    net n (get_url repr self pin) = ok (w1 ++ body ++ w2) ->
    net' n (get_url repr self pin) = ok body ->
    net n (set_url repr self pin value) = ok (w1 ++ body ++ w2) ->
    net' n (set_url repr self pin value) = ok body ->
    async_get_pin_value repr json_loads net self pin n
    = async_get_pin_value repr json_loads net' self pin n
    /\ async_set_pin_value repr net self pin value n
       = async_set_pin_value repr net' self pin value n.
Proof.
  intros repr json_loads net net' self pin value n w1 body w2
         H1 H2 Hg Hg' Hs Hs'.
  split.
  - rewrite (get_first_try repr json_loads net self pin _ n Hg),
            (get_first_try repr json_loads net' self pin _ n Hg').
    now rewrite strip_surrounded.
  - rewrite (set_first_try repr net self pin value _ n Hs),
            (set_first_try repr net' self pin value _ n Hs').
    now rewrite strip_surrounded.
Qed.

Lemma surrounding_blanks_are_ignored_witness :
  async_get_pin_value demo_repr no_json (net_const (ok "  7 ")) demo_service
    PIN_POWER 0%nat
  = async_get_pin_value demo_repr no_json (net_const (ok "7")) demo_service
      PIN_POWER 0%nat.
Proof.
  exact (proj1 (surrounding_blanks_are_ignored demo_repr no_json
                  (net_const (ok "  7 ")) (net_const (ok "7")) demo_service
                  PIN_POWER (PyInt 1) 0%nat "  " "7" " "
                  eq_refl eq_refl eq_refl eq_refl eq_refl eq_refl)).
Defined.

Section Decimal.

Local Open Scope char_scope.







End Decimal.


Example long_digit_body_fails :
  fst (fst (async_get_pin_value demo_repr no_json
              (net_const (ok (PyStr.text (repeat "1"%char (Z.to_nat 4301)))))
              demo_service PIN_POWER 0%nat))
  = Raise (BlynkServiceError
             "Failed to get pin value for V0: Exceeds the limit (4300 digits) for integer string conversion: value has 4301 digits; use sys.set_int_max_str_digits() to increase the limit").
Proof. vm_compute. reflexivity. Qed.






(* ===================================================================== *)
(** ** Power *)
(* ===================================================================== *)

(** X9.  Power round trip.  [async_set_power] writes 1 for on and 0 for off
    to pin V0, and a power read that is answered with the text of what was
    written gives back the same boolean. *)
Theorem power_round_trip :
  forall repr json_loads net self (n : nat) (b : bool),
    net n (get_url repr self PIN_POWER)
    = ok (str repr (PyInt (PyDict.get Bool.eqb POWER_MAPPING b 0))) ->
    async_set_power repr net self b
    = (async_set_pin_value repr net self PIN_POWER
         (PyInt (if b then 1 else 0)) ;;; ret tt)
    /\ set_url repr self PIN_POWER (PyInt (if b then 1 else 0))
       = server self ++ "/external/api/update?token="
         ++ Urllib.quote_plus (token self) ++ "&V0=" ++ (if b then "1" else "0")
    /\ async_get_power repr json_loads net self n
       = (Return b, S n, [Request (get_url repr self PIN_POWER)]).
Proof.
  intros repr json_loads net self n b Hnet.
  split; [now destruct b|].
  split.
  { unfold set_url, _get_request_url, Urllib.urlencode.
    destruct b; cbn; rewrite ?append_assoc; reflexivity. }
  rewrite (get_power_after_get repr json_loads net self n _ _ _
             (get_first_try repr json_loads net self PIN_POWER _ n Hnet)).
  now destruct b.
Qed.

Lemma power_round_trip_witness :
  async_get_power demo_repr no_json (net_const (ok "0")) demo_service 0%nat
  = (Return false, 1%nat, [Request (get_url demo_repr demo_service PIN_POWER)]).
Proof.
  exact (proj2 (proj2 (power_round_trip demo_repr no_json (net_const (ok "0"))
                         demo_service 0%nat false eq_refl))).
Defined.

(* ===================================================================== *)
(** ** The configuration flows *)
(* ===================================================================== *)

Section FlowFacts.

Variable repr : pyobj -> string.
Variable json_loads : string -> loads_result.
Variable net : transport.

Lemma test_credentials_short (token : string) (n : nat) :
  str_len token < 10 ->
  _test_credentials repr json_loads net token n = (FlowRaise InvalidAuth, n, []).
Proof.
  intros H. unfold _test_credentials.
  apply Z.ltb_lt in H. rewrite H, orb_true_r. reflexivity.
Qed.

Lemma test_credentials_long (token : string) (n : nat) :
  10 <= str_len token ->
  exists (a : nat) (valid : bool),
    (a < 3)%nat
    /\ async_validate_token repr json_loads net
         {| server := BASE_URL; token := token |} n
       = (Return valid, (n + S a)%nat,
          attempts_trace
            (get_url repr {| server := BASE_URL; token := token |} PIN_POWER) a)
    /\ _test_credentials repr json_loads net token n
       = ((if valid then FlowReturn tt else FlowRaise CannotConnect),
          (n + S a)%nat,
          attempts_trace
            (get_url repr {| server := BASE_URL; token := token |} PIN_POWER) a).
Proof.
  intros H.
  destruct (validate_token_shape repr json_loads net
              {| server := BASE_URL; token := token |} n)
    as (a & valid & Ha & E & _).
  exists a, valid. split; [exact Ha|]. split; [exact E|].
  unfold _test_credentials.
  assert (Hne : String.eqb token "" = false).
  { destruct token; [cbn in H; lia | reflexivity]. }
  assert (Hlen : (str_len token <? 10) = false) by (apply Z.ltb_ge; lia).
  rewrite Hne, Hlen. cbn [orb].
  unfold flow_try, flow_try_else, flow_bind, await. rewrite E.
  destruct valid; cbn; now rewrite ?app_nil_r.
Qed.

End FlowFacts.

(** X10.  [_test_credentials] answers [InvalidAuth] for the empty token and
    for every token of fewer than ten characters, without a request.  For a
    token of ten characters or more it validates over the network and either
    returns or raises [CannotConnect]: a token that the server rejects, with
    401 or otherwise, is reported as a connection problem, never as invalid
    credentials. *)
Theorem test_credentials_outcomes :
  forall repr json_loads net token (n : nat),
    (str_len token < 10 ->
     _test_credentials repr json_loads net token n
     = (FlowRaise InvalidAuth, n, []))
    /\ (10 <= str_len token ->
        exists (a : nat) (valid : bool),
          (a < 3)%nat
          /\ async_validate_token repr json_loads net
               {| server := BASE_URL; token := token |} n
             = (Return valid, (n + S a)%nat,
                attempts_trace
                  (get_url repr {| server := BASE_URL; token := token |}
                     PIN_POWER) a)
          /\ _test_credentials repr json_loads net token n
             = ((if valid then FlowReturn tt else FlowRaise CannotConnect),
                (n + S a)%nat,
                attempts_trace
                  (get_url repr {| server := BASE_URL; token := token |}
                     PIN_POWER) a))
    /\ (fst (fst (_test_credentials repr json_loads net token n))
        <> FlowRaise InvalidAuth
        \/ str_len token < 10).
Proof.
  intros repr json_loads net token n.
  split; [apply test_credentials_short|].
  split; [apply test_credentials_long|].
  destruct (Z.lt_ge_cases (str_len token) 10) as [H|H]; [now right | left].
  destruct (test_credentials_long repr json_loads net token n H)
    as (a & valid & _ & _ & ->).
  now destruct valid.
Qed.

Example rejected_token_is_cannot_connect :
  _test_credentials demo_repr no_json (net_const (http 401 "")) "abcd1234ef"
    0%nat
  = (FlowRaise CannotConnect, 1%nat,
     [Request "https://dashboard.windmillair.com/external/api/get?token=abcd1234ef&V0"]).
Proof. reflexivity. Qed.

Section StepFacts.

Variable repr : pyobj -> string.
Variable json_loads : string -> loads_result.
Variable net : transport.
Variable in_progress : string -> bool.
Variable configured : string -> bool.

Lemma step_user_long (token : string) (n : nat) :
  10 <= str_len token ->
  exists (a : nat) (valid : bool),
    (a < 3)%nat
    /\ async_validate_token repr json_loads net
         {| server := BASE_URL; token := token |} n
       = (Return valid, (n + S a)%nat,
          attempts_trace
            (get_url repr {| server := BASE_URL; token := token |} PIN_POWER) a)
    /\ async_step_user repr json_loads net in_progress configured
         (Some token) n
       = ((if valid then
             if in_progress ("windmill_fan_" ++ str_suffix 8 token)
             then FlowRaise (AbortFlow "already_in_progress")
             else if configured ("windmill_fan_" ++ str_suffix 8 token)
             then FlowRaise (AbortFlow "already_configured")
             else FlowReturn (CreateEntry "Windmill Fan" [(CONF_TOKEN, token)])
           else FlowReturn (ShowForm "user" [("base", "cannot_connect")])),
          (n + S a)%nat,
          attempts_trace
            (get_url repr {| server := BASE_URL; token := token |} PIN_POWER) a).
Proof.
  intros H.
  destruct (test_credentials_long repr json_loads net token n H)
    as (a & valid & Ha & E & T).
  exists a, valid. split; [exact Ha|]. split; [exact E|].
  unfold async_step_user, flow_try_else. rewrite T.
  unfold config_entry_unique_id.
  assert (H8 : (8 <=? str_len token) = true) by (apply Z.leb_le; lia).
  rewrite H8.
  unfold flow_bind, async_set_unique_id, _abort_if_unique_id_configured.
  destruct valid; [|cbn; now rewrite app_nil_r].
  destruct (in_progress ("windmill_fan_" ++ str_suffix 8 token));
    [cbn; now rewrite ?app_nil_r|].
  destruct (configured ("windmill_fan_" ++ str_suffix 8 token));
    cbn; now rewrite ?app_nil_r.
Qed.

Lemma step_init_changed (stored : option string) (token : string) (n : nat) :
  stored <> Some token ->
  exists (a : nat) (valid : bool),
    (a < 3)%nat
    /\ async_validate_token repr json_loads net
         {| server := BASE_URL; token := token |} n
       = (Return valid, (n + S a)%nat,
          attempts_trace
            (get_url repr {| server := BASE_URL; token := token |} PIN_POWER) a)
    /\ async_step_init repr json_loads net stored (Some token) n
       = (FlowReturn
            (if valid then (CreateEntry "" [], Some token)
             else (ShowForm "init" [("base", "invalid_auth")], None)),
          (n + S a)%nat,
          attempts_trace
            (get_url repr {| server := BASE_URL; token := token |} PIN_POWER) a).
Proof.
  intros H.
  destruct (validate_token_shape repr json_loads net
              {| server := BASE_URL; token := token |} n)
    as (a & valid & Ha & E & _).
  exists a, valid. split; [exact Ha|]. split; [exact E|].
  unfold async_step_init.
  assert (Hneq : match stored with
                 | Some old => String.eqb token old
                 | None => false
                 end = false).
  { destruct stored as [old|]; [|reflexivity].
    apply String.eqb_neq. congruence. }
  rewrite Hneq. cbn [negb].
  unfold flow_try, flow_try_else, flow_bind, await. rewrite E.
  destruct valid; cbn; now rewrite ?app_nil_r.
Qed.

End StepFacts.

(** X11.  The user step of the setup flow.  Without input it shows the form,
    and so it does, with the error [invalid_auth], for a token of fewer than
    ten characters; neither sends a request.  For a longer token it
    validates: on failure it shows the form with [cannot_connect]; on
    success it hands the unique id to the host and aborts with
    [already_in_progress] if another flow holds that id, aborts with
    [already_configured] if an entry holds it, and creates the entry
    otherwise.  The unique id is [windmill_fan_] and the last eight
    characters of the token.  The error [unknown] never shows. *)
Theorem step_user_outcomes :
  forall repr json_loads net in_progress configured token (n : nat),
    async_step_user repr json_loads net in_progress configured None n
    = (FlowReturn (ShowForm "user" []), n, [])
    /\ (str_len token < 10 ->
        async_step_user repr json_loads net in_progress configured
          (Some token) n
        = (FlowReturn (ShowForm "user" [("base", "invalid_auth")]), n, []))
    /\ (10 <= str_len token ->
        exists (a : nat) (valid : bool),
          (a < 3)%nat
          /\ async_validate_token repr json_loads net
               {| server := BASE_URL; token := token |} n
             = (Return valid, (n + S a)%nat,
                attempts_trace
                  (get_url repr {| server := BASE_URL; token := token |}
                     PIN_POWER) a)
          /\ async_step_user repr json_loads net in_progress configured
               (Some token) n
             = ((if valid then
                   if in_progress ("windmill_fan_" ++ str_suffix 8 token)
                   then FlowRaise (AbortFlow "already_in_progress")
                   else if configured ("windmill_fan_" ++ str_suffix 8 token)
                   then FlowRaise (AbortFlow "already_configured")
                   else FlowReturn
                          (CreateEntry "Windmill Fan" [(CONF_TOKEN, token)])
                 else FlowReturn (ShowForm "user" [("base", "cannot_connect")])),
                (n + S a)%nat,
                attempts_trace
                  (get_url repr {| server := BASE_URL; token := token |}
                     PIN_POWER) a))
    /\ fst (fst (async_step_user repr json_loads net in_progress configured
                   (Some token) n))
       <> FlowReturn (ShowForm "user" [("base", "unknown")]).
Proof.
  intros repr json_loads net in_progress configured token n.
  split; [reflexivity|].
  assert (Hshort : str_len token < 10 ->
            async_step_user repr json_loads net in_progress configured
              (Some token) n
            = (FlowReturn (ShowForm "user" [("base", "invalid_auth")]), n, [])).
  { intros H. unfold async_step_user, flow_try_else.
    now rewrite (test_credentials_short repr json_loads net token n H). }
  split; [exact Hshort|].
  split; [apply step_user_long|].
  destruct (Z.lt_ge_cases (str_len token) 10) as [H|H].
  - rewrite (Hshort H). discriminate.
  - destruct (step_user_long repr json_loads net in_progress configured
                token n H) as (a & valid & _ & _ & ->).
    destruct valid; [|discriminate].
    destruct (in_progress _); [discriminate|].
    destruct (configured _); discriminate.
Qed.

Example step_user_aborts :
  async_step_user demo_repr no_json (net_const (ok "1")) (fun _ => false)
    (String.eqb "windmill_fan_abcd1234") (Some "BBBB-abcd1234") 0%nat
  = (FlowRaise (AbortFlow "already_configured"), 1%nat,
     [Request "https://dashboard.windmillair.com/external/api/get?token=BBBB-abcd1234&V0"])
  /\ async_step_user demo_repr no_json (net_const (ok "1"))
       (String.eqb "windmill_fan_abcd1234") (fun _ => false)
       (Some "BBBB-abcd1234") 0%nat
     = (FlowRaise (AbortFlow "already_in_progress"), 1%nat,
        [Request "https://dashboard.windmillair.com/external/api/get?token=BBBB-abcd1234&V0"])
  /\ async_step_user demo_repr no_json (net_const (ok "1"))
       (fun _ => false) (fun _ => false) (Some "BBBB-abcd1234") 0%nat
     = (FlowReturn (CreateEntry "Windmill Fan" [("token", "BBBB-abcd1234")]),
        1%nat,
        [Request "https://dashboard.windmillair.com/external/api/get?token=BBBB-abcd1234&V0"]).
Proof. repeat split. Qed.

(** X12.  The init step of the options flow.  Without input it shows the
    form; with the token the entry already stores it creates the (empty)
    options entry at once; neither sends a request nor changes the entry.  A
    different token, of any length, is validated over the network: if valid
    it is stored in the entry, and otherwise the form shows [invalid_auth],
    whatever made the validation fail; [cannot_connect] never shows. *)
Theorem step_init_outcomes :
  forall repr json_loads net stored token (n : nat),
    async_step_init repr json_loads net stored None n
    = (FlowReturn (ShowForm "init" [], None), n, [])
    /\ async_step_init repr json_loads net (Some token) (Some token) n
       = (FlowReturn (CreateEntry "" [], None), n, [])
    /\ (stored <> Some token ->
        exists (a : nat) (valid : bool),
          (a < 3)%nat
          /\ async_validate_token repr json_loads net
               {| server := BASE_URL; token := token |} n
             = (Return valid, (n + S a)%nat,
                attempts_trace
                  (get_url repr {| server := BASE_URL; token := token |}
                     PIN_POWER) a)
          /\ async_step_init repr json_loads net stored (Some token) n
             = (FlowReturn
                  (if valid then (CreateEntry "" [], Some token)
                   else (ShowForm "init" [("base", "invalid_auth")], None)),
                (n + S a)%nat,
                attempts_trace
                  (get_url repr {| server := BASE_URL; token := token |}
                     PIN_POWER) a))
    /\ fst (fst (async_step_init repr json_loads net stored (Some token) n))
       <> FlowReturn (ShowForm "init" [("base", "cannot_connect")], None).
Proof.
  intros repr json_loads net stored token n.
  split; [reflexivity|].
  assert (Hsame : async_step_init repr json_loads net (Some token)
                    (Some token) n
                  = (FlowReturn (CreateEntry "" [], None), n, [])).
  { unfold async_step_init. now rewrite String.eqb_refl. }
  split; [exact Hsame|].
  split; [apply step_init_changed|].
  destruct stored as [old|].
  - destruct (String.eqb_spec token old) as [<-|Hne].
    + rewrite Hsame. discriminate.
    + destruct (step_init_changed repr json_loads net (Some old) token n)
        as (a & valid & _ & _ & ->); [congruence|].
      destruct valid; discriminate.
  - destruct (step_init_changed repr json_loads net None token n)
      as (a & valid & _ & _ & ->); [discriminate|].
    destruct valid; discriminate.
Qed.

Example same_failure_two_messages :
  fst (fst (async_step_user demo_repr no_json (net_const (http 401 ""))
              (fun _ => false) (fun _ => false) (Some "abcd1234ef") 0%nat))
  = FlowReturn (ShowForm "user" [("base", "cannot_connect")])
  /\ fst (fst (async_step_init demo_repr no_json (net_const (http 401 ""))
                 None (Some "abcd1234ef") 0%nat))
     = FlowReturn (ShowForm "init" [("base", "invalid_auth")], None)
  /\ fst (fst (async_step_init demo_repr no_json (net_const (ok "1"))
                 (Some "abcd1234ef") (Some "") 0%nat))
     = FlowReturn (CreateEntry "" [], Some "").
Proof. repeat split. Qed.

(* ===================================================================== *)
(** ** The entity *)
(* ===================================================================== *)

Lemma str_in_iff (x : string) (l : list string) :
  str_in x l = true <-> In x l.
Proof.
  unfold str_in. rewrite existsb_exists. split.
  - intros (y & Hy & E). apply String.eqb_eq in E. now subst.
  - intros H. exists x. split; [exact H | apply String.eqb_refl].
Qed.

Lemma str_in_false (x : string) (l : list string) :
  ~ In x l -> str_in x l = false.
Proof.
  intros H. destruct (str_in x l) eqn:E; [|reflexivity].
  now apply str_in_iff in E.
Qed.

Lemma preset_modes_value :
  _attr_preset_modes = ["Whisper"; "Low"; "Medium"; "High"; "Boost"].
Proof. reflexivity. Qed.

Section Commands.

Variable repr : pyobj -> string.
Variable net : transport.
Variable refresh : M unit.
Variable to_item : list string -> Z -> string.
Variable c : Coordinator.

Lemma bind_raise {A B} (m : M A) (k : A -> M B) (n n1 : nat) (e : exn)
    (ev1 : list event) :
  m n = (Raise e, n1, ev1) ->
  log_and_reraise (bind m k) n = (Raise e, n1, ev1).
Proof.
  intros H. unfold log_and_reraise, try_except, bind. rewrite H.
  unfold raise. now rewrite app_nil_r.
Qed.

Lemma reraise_run {A} (m : M A) (n : nat) : log_and_reraise m n = m n.
Proof.
  unfold log_and_reraise, try_except.
  destruct (m n) as [[[a|e] n1] ev1]; [reflexivity|].
  unfold raise. now rewrite app_nil_r.
Qed.

End Commands.

(** X13.  A preset mode outside the five names is treated in two ways.
    [async_set_preset_mode] ignores it: it returns at once, without a
    request and without asking for a refresh.  [async_turn_on] turns the fan
    on and selects Medium: it does exactly what it does for the preset
    Medium, whatever percentage comes with it. *)
Theorem invalid_preset_mode :
  forall repr net refresh to_item c (preset : string) (pct : option Z)
         (n : nat),
    ~ In preset ["Whisper"; "Low"; "Medium"; "High"; "Boost"] ->
    async_set_preset_mode repr net refresh c preset n = (Return tt, n, [])
    /\ async_turn_on repr net refresh to_item c pct (Some preset) n
       = async_turn_on repr net refresh to_item c None (Some "Medium") n.
Proof.
  intros repr net refresh to_item c preset pct n H.
  unfold async_set_preset_mode, async_turn_on.
  rewrite preset_modes_value, (str_in_false _ _ H). split; reflexivity.
Qed.

Lemma invalid_preset_mode_witness :
  async_set_preset_mode demo_repr (net_const (ok "")) (ret tt)
    demo_coordinator "Turbo" 0%nat
  = (Return tt, 0%nat, []).
Proof.
  apply (invalid_preset_mode demo_repr (net_const (ok "")) (ret tt)
           (fun _ _ => "") demo_coordinator "Turbo" None 0%nat).
  cbn [In]. intuition discriminate.
Defined.

(** X14.  A command stops at a failed power write.  When the write of the
    power pin fails, turning on, turning off, and (for a fan that is off)
    selecting a preset mode or a percentage raise the error of that write
    with only its requests made: no speed is written and no refresh is
    asked for. *)
Theorem failed_power_write_stops_command :
  forall repr net refresh to_item c (b : bool) (preset : string)
         (pct : Z) (opt_pct : option Z) (opt_preset : option string)
         (n n1 : nat) (e : exn) (ev1 : list event),
    async_set_power repr net (blynk_service c) b n = (Raise e, n1, ev1) ->
    (b = true ->
     async_turn_on repr net refresh to_item c opt_pct opt_preset n
     = (Raise e, n1, ev1)
     /\ (is_on c = false ->
         In preset ["Whisper"; "Low"; "Medium"; "High"; "Boost"] ->
         async_set_preset_mode repr net refresh c preset n
         = (Raise e, n1, ev1))
     /\ (is_on c = false -> pct <> 0 ->
         async_set_percentage repr net refresh to_item c pct n
         = (Raise e, n1, ev1)))
    /\ (b = false ->
        async_turn_off repr net refresh c n = (Raise e, n1, ev1)
        /\ async_set_percentage repr net refresh to_item c 0 n
           = (Raise e, n1, ev1)).
Proof.
  intros repr net refresh to_item c b preset pct opt_pct opt_preset
         n n1 e ev1 H.
  split; intros ->.
  - split; [|split].
    + unfold async_turn_on. now apply bind_raise.
    + intros Hoff Hin. unfold async_set_preset_mode.
      rewrite preset_modes_value. apply str_in_iff in Hin. rewrite Hin.
      rewrite Hoff. cbn [negb]. now apply bind_raise.
    + intros Hoff Hpct. unfold async_set_percentage.
      apply Z.eqb_neq in Hpct. rewrite Hpct, Hoff. cbn [negb].
      apply bind_raise. unfold bind. now rewrite H.
  - assert (Hoff : async_turn_off repr net refresh c n = (Raise e, n1, ev1)).
    { unfold async_turn_off. now apply bind_raise. }
    split; [exact Hoff|].
    unfold async_set_percentage. cbn [Z.eqb]. now apply bind_raise.
Qed.

Lemma failed_power_write_stops_command_witness :
  async_turn_on demo_repr (net_const (http 401 "")) (ret tt) (fun _ _ => "")
    demo_coordinator None None 0%nat
  = (Raise (BlynkServiceError "Invalid authentication token"), 1%nat,
     [Request (set_url demo_repr demo_service PIN_POWER (PyInt 1))]).
Proof.
  destruct (failed_power_write_stops_command demo_repr
              (net_const (http 401 "")) (ret tt) (fun _ _ => "")
              demo_coordinator true "High" 50 None None 0%nat 1%nat
              (BlynkServiceError "Invalid authentication token")
              [Request (set_url demo_repr demo_service PIN_POWER (PyInt 1))]
              eq_refl) as [H _].
  exact (proj1 (H eq_refl)).
Defined.

(** X15.  Turning off through a percentage asks for two refreshes.
    [async_turn_off] writes power 0 and asks for a refresh;
    [async_set_percentage] with 0 does all of that and then asks for a
    refresh once more. *)
Theorem percentage_zero_refreshes_twice :
  forall repr net refresh to_item c (n n1 n2 n3 : nat)
         (ev1 ev2 ev3 : list event) (r : result unit),
    async_set_power repr net (blynk_service c) false n = (Return tt, n1, ev1) ->
    refresh n1 = (Return tt, n2, ev2) ->
    refresh n2 = (r, n3, ev3) ->
    async_turn_off repr net refresh c n = (Return tt, n2, (ev1 ++ ev2)%list)
    /\ async_set_percentage repr net refresh to_item c 0 n
       = (r, n3, ((ev1 ++ ev2) ++ ev3)%list).
Proof.
  intros repr net refresh to_item c n n1 n2 n3 ev1 ev2 ev3 r H1 H2 H3.
  assert (Hoff : async_turn_off repr net refresh c n
                 = (Return tt, n2, (ev1 ++ ev2)%list)).
  { unfold async_turn_off. rewrite reraise_run. unfold bind.
    now rewrite H1, H2. }
  split; [exact Hoff|].
  unfold async_set_percentage. rewrite reraise_run. cbn [Z.eqb].
  unfold bind at 1. now rewrite Hoff, H3.
Qed.

Lemma percentage_zero_refreshes_twice_witness :
  async_set_percentage demo_repr (net_const (ok "")) (sleep 0) (fun _ _ => "")
    demo_coordinator 0 0%nat
  = (Return tt, 1%nat,
     [Request (set_url demo_repr demo_service PIN_POWER (PyInt 0));
      Sleep 0; Sleep 0]).
Proof.
  exact (proj2 (percentage_zero_refreshes_twice demo_repr (net_const (ok ""))
                  (sleep 0) (fun _ _ => "") demo_coordinator
                  0%nat 1%nat 1%nat 1%nat
                  [Request (set_url demo_repr demo_service PIN_POWER (PyInt 0))]
                  [Sleep 0] [Sleep 0] (Return tt)
                  eq_refl eq_refl eq_refl)).
Defined.

Lemma fan_of_pin_value_level (repr : pyobj -> string) (v : pyobj) :
  In (fan_of_pin_value repr v) ["Whisper"; "Low"; "Medium"; "High"; "Boost"].
Proof.
  unfold fan_of_pin_value, PyDict.get.
  destruct (lookup_cases FAN_SPEED_REVERSE_MAPPING (str repr v))
    as [(name & Hin & ->) | [_ ->]].
  - rewrite reverse_mapping_value in Hin. table_cases Hin; simpl; auto 10.
  - simpl; auto 10.
Qed.

Lemma get_fan_level repr json_loads net self (n n' : nat) (f : string)
    (ev : list event) :
  async_get_fan repr json_loads net self n = (Return f, n', ev) ->
  In f ["Whisper"; "Low"; "Medium"; "High"; "Boost"].
Proof.
  destruct (async_get_pin_value repr json_loads net self PIN_FAN_SPEED n)
    as [[[v|e] n1] ev1] eqn:E;
    rewrite (get_fan_after_get repr json_loads net self n _ _ _ E);
    intros H; inversion H. apply fan_of_pin_value_level.
Qed.

(** X16.  What the entity shows of a snapshot that a refresh cycle returned.
    The speed of the snapshot is one of the five level names.  With the
    power on, the preset mode is that name and the percentage is the host's
    percentage of that name in the speed list; with the power off, the
    preset mode is absent and the percentage is 0, though the snapshot still
    holds a speed. *)
Theorem entity_shows_snapshot :
  forall repr json_loads net to_percentage c c' (n n' : nat) snapshot ev,
    _async_update_data repr json_loads net c n = (Return snapshot, n', ev) ->
    data c' = Some snapshot ->
    In (fan snapshot) ["Whisper"; "Low"; "Medium"; "High"; "Boost"]
    /\ is_on c' = power snapshot
    /\ preset_mode c'
       = (if power snapshot then Some (fan snapshot) else None)
    /\ percentage to_percentage c'
       = (if power snapshot then to_percentage _speed_list (fan snapshot)
          else 0).
Proof.
  intros repr json_loads net to_percentage c c' n n' snapshot ev Hrun Hdata.
  assert (Hfan : In (fan snapshot)
                   ["Whisper"; "Low"; "Medium"; "High"; "Boost"]).
  { rewrite update_data_by_cases in Hrun.
    destruct (async_get_power repr json_loads net (blynk_service c) n)
      as [[[p|e] n1] ev1]; [|discriminate].
    destruct (async_get_fan repr json_loads net (blynk_service c) n1)
      as [[[f|e] n2] ev2] eqn:F; [|discriminate].
    injection Hrun as <- _ _. cbn [fan].
    exact (get_fan_level _ _ _ _ _ _ _ _ F). }
  split; [exact Hfan|].
  unfold percentage, preset_mode, is_on. rewrite Hdata.
  split; [reflexivity|]. split; [now destruct (power snapshot)|].
  destruct (power snapshot); [|reflexivity]. cbn [negb].
  change _speed_list with ["Whisper"; "Low"; "Medium"; "High"; "Boost"].
  apply str_in_iff in Hfan as Hin. rewrite Hin.
  assert (Hne : String.eqb (fan snapshot) "" = false).
  { cbn [In] in Hfan.
    destruct Hfan as [<-|[<-|[<-|[<-|[<-|[]]]]]]; reflexivity. }
  now rewrite Hne.
Qed.

Lemma entity_shows_snapshot_witness :
  preset_mode demo_coordinator = Some "High"
  /\ percentage HostUtil.ordered_list_item_to_percentage demo_coordinator = 80.
Proof.
  destruct (entity_shows_snapshot demo_repr no_json
              (net_script [ok "1"] (ok "4"))
              HostUtil.ordered_list_item_to_percentage
              demo_coordinator demo_coordinator 0%nat 2%nat
              {| power := true; fan := "High" |}
              [ Request (get_url demo_repr demo_service PIN_POWER);
                Request (get_url demo_repr demo_service PIN_FAN_SPEED) ]
              eq_refl eq_refl) as (_ & _ & Hp & Hq).
  split; [exact Hp | exact Hq].
Defined.

(** X17.  The percentage ladder of the five levels, with the host's helpers.
    A level shows as 20, 40, 60, 80 or 100 percent by its place in the list.
    Every percentage selects one of the five levels: up to 20 (zero and
    negative numbers included) Whisper, up to 40 Low, up to 60 Medium, up to
    80 High, and everything above Boost.  The percentage a level shows
    selects that level again.  So [async_turn_on] with a percentage, zero
    included, turns the fan on at the level the percentage selects, as if
    that level had been passed as preset mode. *)
Theorem percentage_ladder :
  forall (p : Z) (level : string),
    In (HostUtil.percentage_to_ordered_list_item _speed_list p) _speed_list
    /\ (forall repr net refresh c,
          async_turn_on repr net refresh
            HostUtil.percentage_to_ordered_list_item c (Some p) None
          = async_turn_on repr net refresh
              HostUtil.percentage_to_ordered_list_item c None
              (Some (HostUtil.percentage_to_ordered_list_item _speed_list p)))
    /\ HostUtil.percentage_to_ordered_list_item _speed_list p
       = (if p <=? 20 then "Whisper" else if p <=? 40 then "Low"
          else if p <=? 60 then "Medium" else if p <=? 80 then "High"
          else "Boost")
    /\ (In level _speed_list ->
        In (level, HostUtil.ordered_list_item_to_percentage _speed_list level)
           [ ("Whisper", 20); ("Low", 40); ("Medium", 60); ("High", 80);
             ("Boost", 100) ]
        /\ HostUtil.percentage_to_ordered_list_item _speed_list
             (HostUtil.ordered_list_item_to_percentage _speed_list level)
           = level).
Proof.
  intros p level.
  assert (E : HostUtil.percentage_to_ordered_list_item _speed_list p
              = (if p <=? 20 then "Whisper" else if p <=? 40 then "Low"
                 else if p <=? 60 then "Medium" else if p <=? 80 then "High"
                 else "Boost")).
  { unfold HostUtil.percentage_to_ordered_list_item.
    change _speed_list with ["Whisper"; "Low"; "Medium"; "High"; "Boost"].
    cbn [HostUtil.first_at_or_above List.length].
    change ((0 + 1) * 100 / Z.of_nat 5) with 20.
    change ((0 + 1 + 1) * 100 / Z.of_nat 5) with 40.
    change ((0 + 1 + 1 + 1) * 100 / Z.of_nat 5) with 60.
    change ((0 + 1 + 1 + 1 + 1) * 100 / Z.of_nat 5) with 80.
    change ((0 + 1 + 1 + 1 + 1 + 1) * 100 / Z.of_nat 5) with 100.
    destruct (p <=? 20) eqn:H1; [reflexivity|].
    destruct (p <=? 40) eqn:H2; [reflexivity|].
    destruct (p <=? 60) eqn:H3; [reflexivity|].
    destruct (p <=? 80) eqn:H4; [reflexivity|].
    destruct (p <=? 100); reflexivity. }
  assert (Hin : In (HostUtil.percentage_to_ordered_list_item _speed_list p)
                  _speed_list).
  { rewrite E. change _speed_list with
      ["Whisper"; "Low"; "Medium"; "High"; "Boost"].
    destruct (p <=? 20); [simpl; auto|].
    destruct (p <=? 40); [simpl; auto|].
    destruct (p <=? 60); [simpl; auto|].
    destruct (p <=? 80); simpl; auto 10. }
  split; [exact Hin|]. split; [|split; [exact E|]].
  - intros repr net refresh c. unfold async_turn_on.
    change _attr_preset_modes with _speed_list.
    apply str_in_iff in Hin. now rewrite Hin.
  - change _speed_list with ["Whisper"; "Low"; "Medium"; "High"; "Boost"].
    cbn [In].
    intros [<-|[<-|[<-|[<-|[<-|[]]]]]]; split; try reflexivity;
      cbn [In]; auto 10.
Qed.

Lemma percentage_ladder_witness :
  HostUtil.percentage_to_ordered_list_item _speed_list
    (HostUtil.ordered_list_item_to_percentage _speed_list "Low")
  = "Low".
Proof.
  destruct (percentage_ladder 0 "Low") as (_ & _ & _ & H).
  apply H. cbn. auto.
Defined.

(* ===================================================================== *)
(** ** The retry budget *)
(* ===================================================================== *)

Section Budget.

Variable net : transport.
Variables (url : string) (retries : Z).

Lemma attempt_once_client_error (attempt : Z) (n : nat) (msg : string) :
  net n url = client_error msg ->
  attempt_once net url retries attempt n
  = if attempt =? retries - 1
    then (Raise (BlynkServiceError
                   ("Request failed after " ++ PyStr.str_of_int retries
                    ++ " attempts: " ++ msg)), S n, [Request url])
    else (Return None, S n, [Request url; Sleep 1]).
Proof.
  intros H. run_coro. rewrite H. simpl.
  destruct (attempt =? retries - 1); reflexivity.
Qed.

Lemma retry_loop_all_fail (last : string) :
  forall (todo : nat) (attempt : Z) (n : nat),
    attempt + Z.of_nat (S todo) = retries ->
    (forall j, (j < todo)%nat -> exists m, net (n + j)%nat url = client_error m) ->
    net (n + todo)%nat url = client_error last ->
    retry_loop net url retries attempt (S todo) n
    = (Raise (BlynkServiceError
                ("Request failed after " ++ PyStr.str_of_int retries
                 ++ " attempts: " ++ last)),
       (n + S todo)%nat, attempts_trace url todo).
Proof.
  induction todo as [|todo IH]; intros attempt n Hsum Hall Hlast.
  - cbn [retry_loop]. unfold bind.
    rewrite Nat.add_0_r in Hlast.
    rewrite (attempt_once_client_error attempt n last Hlast).
    replace (attempt =? retries - 1) with true
      by (symmetry; apply Z.eqb_eq; lia).
    f_equal. f_equal. lia.
  - destruct (Hall 0%nat ltac:(lia)) as [m Hm]. rewrite Nat.add_0_r in Hm.
    change (retry_loop net url retries attempt (S (S todo)) n)
      with (bind (attempt_once net url retries attempt)
              (fun r => match r with
                        | Some t => ret (Some t)
                        | None => retry_loop net url retries (attempt + 1)
                                    (S todo)
                        end) n).
    unfold bind. rewrite (attempt_once_client_error attempt n m Hm).
    replace (attempt =? retries - 1) with false
      by (symmetry; apply Z.eqb_neq; lia).
    rewrite (IH (attempt + 1) (S n)); try lia.
    + cbn [app attempts_trace]. f_equal. f_equal. lia.
    + intros j Hj. replace (S n + j)%nat with (n + S j)%nat by lia.
      apply Hall. lia.
    + replace (S n + todo)%nat with (n + S todo)%nat by lia. exact Hlast.
Qed.

End Budget.

(** X18.  The retry count is a budget of attempts.  With a count of zero or
    less no request is made and the call fails with [Max retries exceeded].
    With a count of at least one the call never issues more requests than
    the count, and when that many attempts in a row end in a client error it
    fails after exactly that many requests, with one pause of a second fewer
    than requests; the message names the count and the last error. *)
Theorem retry_budget :
  forall net url (retries : Z) (n : nat),
    (retries <= 0 ->
     _make_request_with_retry net url retries n
     = (Raise (BlynkServiceError "Max retries exceeded"), n, []))
    /\ (1 <= retries ->
        (Z.of_nat (snd (fst (_make_request_with_retry net url retries n)))
         <= Z.of_nat n + retries)
        /\ forall last,
             (forall j, (Z.of_nat j < retries - 1) ->
                        exists m, net (n + j)%nat url = client_error m) ->
             net (n + Z.to_nat (retries - 1))%nat url = client_error last ->
             _make_request_with_retry net url retries n
             = (Raise (BlynkServiceError
                         ("Request failed after " ++ PyStr.str_of_int retries
                          ++ " attempts: " ++ last)),
                (n + Z.to_nat retries)%nat,
                attempts_trace url (Z.to_nat (retries - 1)))
             /\ slept (attempts_trace url (Z.to_nat (retries - 1)))
                = retries - 1).
Proof.
  intros net url retries n. split.
  - intros H. unfold _make_request_with_retry.
    replace (Z.to_nat retries) with 0%nat by lia. reflexivity.
  - intros H. split.
    + destruct (request_shape net url retries n H) as (k & r & Hk & E & _).
      rewrite E. cbn [fst snd]. lia.
    + intros last Hall Hlast. split; [|rewrite slept_attempts; lia].
      unfold _make_request_with_retry, bind.
      replace (Z.to_nat retries) with (S (Z.to_nat (retries - 1))) by lia.
      assert (E : retry_loop net url retries 0
                    (S (Z.to_nat (retries - 1))) n
                  = (Raise (BlynkServiceError
                              ("Request failed after "
                               ++ PyStr.str_of_int retries
                               ++ " attempts: " ++ last)),
                     (n + S (Z.to_nat (retries - 1)))%nat,
                     attempts_trace url (Z.to_nat (retries - 1)))).
      { apply retry_loop_all_fail; [lia | | exact Hlast].
        intros j Hj. apply Hall. lia. }
      rewrite E.
      replace (n + S (Z.to_nat (retries - 1)))%nat
        with (n + Z.to_nat retries)%nat by lia.
      reflexivity.
Qed.

Example retry_budget_of_five :
  _make_request_with_retry (net_const (client_error "down")) "u" 5 0%nat
  = (Raise (BlynkServiceError "Request failed after 5 attempts: down"),
     5%nat, attempts_trace "u" 4)
  /\ _make_request_with_retry (net_const (ok "1")) "u" 0 0%nat
     = (Raise (BlynkServiceError "Max retries exceeded"), 0%nat, []).
Proof. split; reflexivity. Qed.

(* ===================================================================== *)
(** ** Unique ids and the session *)
(* ===================================================================== *)

Lemma length_app (a b : string) :
  String.length (a ++ b) = (String.length a + String.length b)%nat.
Proof. induction a as [|x a IH]; simpl; [reflexivity | now rewrite IH]. Qed.

Lemma str_suffix_app (k : nat) (p s : string) :
  String.length s = k -> str_suffix k (p ++ s) = s.
Proof.
  intros H. unfold str_suffix.
  rewrite length_app, chars_app, H.
  replace (String.length p + k - k)%nat
    with (List.length (PyStr.chars p) + 0)%nat
    by (rewrite chars_length; lia).
  rewrite skipn_app, Nat.add_0_r, skipn_all.
  replace (List.length (PyStr.chars p) - List.length (PyStr.chars p))%nat
    with 0%nat by lia.
  apply string_of_list_ascii_of_string.
Qed.

Lemma str_suffix_short (k : nat) (s : string) :
  (String.length s <= k)%nat -> str_suffix k s = s.
Proof.
  intros H. unfold str_suffix.
  replace (String.length s - k)%nat with 0%nat by lia.
  apply string_of_list_ascii_of_string.
Qed.

(** X19.  The unique ids use the last eight characters of the token only.
    For a token that ends in the eight characters [s], the id of the entity
    is [windmillfan_s_key], and the id that [async_step_user] computes and
    hands to the host for its two checks is [windmill_fan_s]; so two tokens
    that end alike get the same ids.  For the entity, a token of one to
    eight characters is used whole and the empty token gives [unknown]. *)
Theorem unique_id_uses_last_eight :
  forall repr json_loads net in_progress configured c1 c2 key
         (p1 p2 s : string) (n : nat),
    String.length s = 8%nat ->
    token (blynk_service c1) = p1 ++ s ->
    token (blynk_service c2) = p2 ++ s ->
    unique_id c1 key = "windmillfan_" ++ s ++ "_" ++ key
    /\ unique_id c1 key = unique_id c2 key
    /\ config_entry_unique_id (p1 ++ s) = "windmill_fan_" ++ s
    /\ config_entry_unique_id (p1 ++ s) = config_entry_unique_id (p2 ++ s)
    /\ (10 <= str_len (p1 ++ s) ->
        exists (a : nat) (valid : bool),
          async_validate_token repr json_loads net
            {| server := BASE_URL; token := p1 ++ s |} n
          = (Return valid, (n + S a)%nat,
             attempts_trace
               (get_url repr {| server := BASE_URL; token := p1 ++ s |}
                  PIN_POWER) a)
          /\ async_step_user repr json_loads net in_progress configured
               (Some (p1 ++ s)) n
             = ((if valid then
                   if in_progress ("windmill_fan_" ++ s)
                   then FlowRaise (AbortFlow "already_in_progress")
                   else if configured ("windmill_fan_" ++ s)
                   then FlowRaise (AbortFlow "already_configured")
                   else FlowReturn
                          (CreateEntry "Windmill Fan"
                             [(CONF_TOKEN, p1 ++ s)])
                 else FlowReturn (ShowForm "user" [("base", "cannot_connect")])),
                (n + S a)%nat,
                attempts_trace
                  (get_url repr {| server := BASE_URL; token := p1 ++ s |}
                     PIN_POWER) a))
    /\ (forall c t,
          token (blynk_service c) = t -> t <> "" ->
          (String.length t <= 8)%nat ->
          unique_id c key = "windmillfan_" ++ t ++ "_" ++ key)
    /\ (forall c,
          token (blynk_service c) = "" ->
          unique_id c key = "windmillfan_unknown_" ++ key).
Proof.
  intros repr json_loads net in_progress configured c1 c2 key p1 p2 s n
         Hs H1 H2.
  assert (Hne : forall p, String.eqb (p ++ s) "" = false).
  { intros p. apply String.eqb_neq. intros E.
    apply (f_equal String.length) in E. rewrite length_app, Hs in E.
    simpl in E. lia. }
  assert (E : forall c p, token (blynk_service c) = p ++ s ->
                unique_id c key = "windmillfan_" ++ s ++ "_" ++ key).
  { intros c p H. unfold unique_id. rewrite H, Hne. cbn [negb].
    now rewrite (str_suffix_app 8 p s Hs). }
  assert (U : forall p, config_entry_unique_id (p ++ s) = "windmill_fan_" ++ s).
  { intros p. unfold config_entry_unique_id.
    replace (8 <=? str_len (p ++ s)) with true.
    - now rewrite (str_suffix_app 8 p s Hs).
    - symmetry. apply Z.leb_le. unfold str_len. rewrite length_app, Hs. lia. }
  split; [exact (E c1 p1 H1)|].
  split; [now rewrite (E c1 p1 H1), (E c2 p2 H2)|].
  split; [apply U|].
  split; [now rewrite !U|].
  split.
  { intros Hlen.
    destruct (step_user_long repr json_loads net in_progress configured
                (p1 ++ s) n Hlen) as (a & valid & _ & Hv & Hstep).
    exists a, valid. split; [exact Hv|].
    now rewrite (str_suffix_app 8 p1 s Hs) in Hstep. }
  split.
  - intros c t Ht Hnonempty Hshort. unfold unique_id. rewrite Ht.
    replace (String.eqb t "") with false
      by (symmetry; now apply String.eqb_neq).
    cbn [negb]. now rewrite (str_suffix_short 8 t Hshort).
  - intros c Ht. unfold unique_id. now rewrite Ht.
Qed.

Lemma unique_id_uses_last_eight_witness :
  unique_id demo_coordinator "windmill_fan"
  = "windmillfan_cd1234ef_windmill_fan".
Proof.
  exact (proj1 (unique_id_uses_last_eight demo_repr no_json
                  (net_const (ok "1")) (fun _ => false) (fun _ => false)
                  demo_coordinator demo_coordinator
                  "windmill_fan" "ab" "ab" "cd1234ef" 0%nat
                  eq_refl eq_refl eq_refl)).
Defined.

(** X20.  The session is created on demand and closing is safe at any time.
    [close] changes nothing before the first request and nothing when called
    again, so the double close of an unloaded entry equals a single one.
    [_get_session] hands out an open session: the one at hand as long as it
    is open, without creating another; after a [close] a new one, different
    from the closed one (session ids stay below the number of sessions
    created, which the operations keep true). *)
Theorem session_lifecycle :
  forall (self : ServiceState),
    close new_service = new_service
    /\ close (close self) = close self
    /\ unload_cleanup self = close self
    /\ closed (fst (_get_session self)) = false
    /\ _session (snd (_get_session self)) = Some (fst (_get_session self))
    /\ _get_session (snd (_get_session self))
       = (fst (_get_session self), snd (_get_session self))
    /\ session_ok new_service
    /\ (session_ok self ->
        session_ok (close self) /\ session_ok (snd (_get_session self)))
    /\ (forall s, _session self = Some s -> session_ok self ->
          closed (fst (_get_session (close self))) = false
          /\ session_id (fst (_get_session (close self))) <> session_id s
          /\ sessions_created (snd (_get_session (close self)))
             = S (sessions_created self)).
Proof.
  intros self.
  split; [reflexivity|].
  split; [destruct self as [[[id [|]]|] created]; reflexivity|].
  split; [destruct self as [[[id [|]]|] created]; reflexivity|].
  split; [destruct self as [[[id [|]]|] created]; reflexivity|].
  split; [destruct self as [[[id [|]]|] created]; reflexivity|].
  split; [destruct self as [[[id [|]]|] created]; reflexivity|].
  split; [intros s H; discriminate H|].
  split.
  { unfold session_ok. intros Hinv.
    destruct self as [[[id [|]]|] created]; cbn in *;
      split; intros s H; try discriminate H; injection H as <-; cbn;
      try (specialize (Hinv _ eq_refl); cbn in Hinv); lia. }
  intros s H Hinv. specialize (Hinv s H).
  destruct self as [[[id [|]]|] created]; cbn in H; try discriminate;
    injection H as <-; cbn in *; (split; [reflexivity|]);
    split; lia.
Qed.
